(** * Weather data collection pipeline: coordinate cache, fetch, storage, cycle

    A shallow embedding of [src/data_collection/weather_collector.py]
    ([WeatherDataCollector]) and [src/data_collection/scheduler.py]
    ([WeatherScheduler.collect_all_current]).

    Modelling choices, all visible in the definitions below:
    - The SQLite file is a record of three tables.  [city_coordinates] has a
      PRIMARY KEY on [city] and is a finite map keyed by the city text; the two
      observation tables are append-only lists (the AUTOINCREMENT id of a row
      is its position).  The [created_at] columns are filled by SQLite and are
      read by no code, they are left out.
    - Columns declared INTEGER hold [Z], columns declared REAL hold binary64
      floats (Python's [float]), DATETIME columns hold a count of
      microseconds.  The JSON fields have the type of the column they end up
      in.  Arithmetic on dates is exact on [Z]; the bounds of Python's
      [datetime] (years 1 to 9999) are not modelled here.
    - The outside world (HTTP answers, the clock, an INSERT that fails for a
      reason that is not a constraint) is an oracle indexed by the number of
      consultations made so far, so the same request may be answered
      differently at different times.  Opening the database and SELECT
      statements are taken to succeed.
    - Effects are threaded through a state-and-exception monad: an exception
      leaves the effects performed before it in place, as in Python.
    - What the program does to the outside (requests, sleeps, log lines, CSV
      files) is recorded as a list of events, most recent first.

    A second model, the module [Full], embeds the collector and the loop of
    the cycle again without the assumptions of the first: a JSON number is a
    Python int or float, dates are bounded, the database may fail to open
    or to be read, and [time.sleep] may refuse its argument.  The properties
    that depend on these points are stated on [Full]. *)

From Stdlib Require Import ZArith String Ascii List Lia Bool.
From Stdlib Require Import Floats.PrimFloat Floats.SpecFloat Floats.FloatOps.
From stdpp Require Import gmap strings.
Import ListNotations.

Set Warnings "-inexact-float".
Local Open Scope string_scope.
Local Open Scope list_scope.
Local Open Scope Z_scope.

(** ** Python values *)

Inductive exn : Type :=
| RequestException (msg : string)   (* requests.get, raise_for_status, response.json() *)
| KeyError (key : string)           (* a subscript on the decoded JSON *)
| OverflowError (msg : string)      (* int too large to convert to float *)
| IntegrityError (msg : string)     (* sqlite3: a constraint failed *)
| OperationalError (msg : string).  (* sqlite3: any other failure of a statement *)

Inductive result (A : Type) : Type :=
| Raise (e : exn)
| Return (a : A).
Arguments Raise {A} e.
Arguments Return {A} a.

(** [datetime]: naive local time, in microseconds. *)
Definition datetime : Type := Z.

Definition microseconds_per_day : Z := 86400 * 1000000.

(** [datetime.fromtimestamp(secs)] *)
Definition fromtimestamp (secs : Z) : datetime := secs * 1000000.

(** [d - timedelta(days=days)] *)
Definition minus_days (d : datetime) (days : Z) : datetime :=
  d - days * microseconds_per_day.

(** The binary64 float nearest to the integer [z] (ties to even), infinite
    when [z] is beyond the largest finite float. *)
Definition nearest_float (z : Z) : float :=
  SF2Prim (binary_normalize prec emax z 0 false).

(** [float(z)] as Python computes it in [int * float] and [int + float]:
    OverflowError instead of an infinite result. *)
Definition float_of_int (z : Z) : result float :=
  if PrimFloat.is_infinity (nearest_float z)
  then Raise (OverflowError "int too large to convert to float")
  else Return (nearest_float z).

(** Python's [min(a, b)] and [max(a, b)] on integers: the first argument is
    kept unless the second is strictly smaller (resp. larger). *)
Definition py_min (a b : Z) : Z := if b <? a then b else a.
Definition py_max (a b : Z) : Z := if a <? b then b else a.

(** [max(0, x)] for a float [x]: [x] when [x > 0], the integer 0 (stored as
    0.0 in a REAL column) otherwise, also for NaN and -0.0. *)
Definition py_max0 (x : float) : float :=
  if PrimFloat.ltb 0%float x then x else 0%float.

(** ** Decoded JSON *)

(** One entry of the geocoding answer. *)
Record geo_match := {
  gm_name : string;
  gm_country : string;
  gm_lat : float;
  gm_lon : float;
}.

(** The answer of the current-weather endpoint.  A key that is absent is
    [None]; nested keys are written with an underscore
    ([main_temp] is [data['main']['temp']], [weather0_main] is
    [data['weather'][0]['main']]). *)
Record weather_json := {
  dt : option Z;
  main_temp : option float;
  main_feels_like : option float;
  main_humidity : option Z;
  main_pressure : option float;
  wind_speed : option float;
  wind_deg : option Z;
  visibility : option Z;
  clouds_all : option Z;
  weather0_main : option string;
  weather0_description : option string;
  sys_sunrise : option Z;
  sys_sunset : option Z;
}.

(** [data[key]]: KeyError when the key is absent. *)
Definition subscript {A : Type} (key : string) (field : option A) : result A :=
  match field with
  | Some v => Return v
  | None => Raise (KeyError key)
  end.

(** [data.get(key, default)] *)
Definition get_default {A : Type} (field : option A) (default : A) : A :=
  match field with
  | Some v => v
  | None => default
  end.

(** ** The database *)

(** The [coords] dictionary of [get_city_coordinates]. *)
Record coords := {
  c_city : string;
  c_country : string;
  c_lat : float;
  c_lon : float;
}.

(** A row of [city_coordinates] without its key. *)
Record coordinate_row := {
  cc_country : string;
  cc_latitude : float;
  cc_longitude : float;
}.

Record current_row := {
  cw_city : string;
  cw_country : string;
  cw_latitude : float;
  cw_longitude : float;
  cw_timestamp : datetime;
  cw_temperature : float;
  cw_feels_like : float;
  cw_humidity : Z;
  cw_pressure : float;
  cw_wind_speed : float;
  cw_wind_direction : Z;
  cw_visibility : Z;
  cw_cloud_cover : Z;
  cw_weather_main : string;
  cw_weather_description : string;
  cw_sunrise : datetime;
  cw_sunset : datetime;
}.

Record historical_row := {
  hw_city : string;
  hw_latitude : float;
  hw_longitude : float;
  hw_timestamp : datetime;
  hw_temperature : float;
  hw_feels_like : float;
  hw_humidity : Z;
  hw_pressure : float;
  hw_wind_speed : float;
  hw_wind_direction : Z;
  hw_cloud_cover : Z;
  hw_weather_main : string;
  hw_weather_description : string;
}.

Record store := {
  current_weather : list current_row;
  historical_weather : list historical_row;
  city_coordinates : gmap string coordinate_row;
}.

(** The database right after [init_database] on a fresh file. *)
Definition empty_store : store :=
  {| current_weather := []; historical_weather := []; city_coordinates := ∅ |}.

(** ** Events *)

Inductive request : Type :=
| GeocodingRequest (q : string)          (* GET .../geo/1.0/direct?q=..&limit=1 *)
| WeatherRequest (lat lon : float).      (* GET .../data/2.5/weather?lat=..&lon=..&units=metric *)

Inductive log_level : Type := INFO | ERROR.

(** The log lines of the two files, one constructor per format string. *)
Inductive log_record : Type :=
| ErrorGettingCoordinates (city : string) (e : exn)
| ErrorNoCoordinates (city : string)
| InfoCollectedCurrent (city : string)
| ErrorCollectingCurrent (city : string) (e : exn)
| ErrorCollectingHistorical (city : string) (day : Z) (e : exn)
| InfoCollectedHistorical (success_count : nat) (days_back : Z) (city : string)
| InfoExported
| InfoStartingScheduled
| ErrorCollectingWeather (city : string) (e : exn)
| InfoCompleted (success_count attempted : nat).

Definition log_level_of (l : log_record) : log_level :=
  match l with
  | ErrorGettingCoordinates _ _ | ErrorNoCoordinates _ | ErrorCollectingCurrent _ _
  | ErrorCollectingHistorical _ _ _ | ErrorCollectingWeather _ _ => ERROR
  | InfoCollectedCurrent _ | InfoCollectedHistorical _ _ _ | InfoExported
  | InfoStartingScheduled | InfoCompleted _ _ => INFO
  end.


Inductive event : Type :=
| Requested (r : request)
| Slept (seconds : float)
| Logged (l : log_record)
| WroteCurrentCsv (rows : list current_row)        (* data/current_weather.csv *)
| WroteHistoricalCsv (rows : list historical_row). (* data/historical_weather.csv *)

Definition is_geocoding_request (ev : event) : bool :=
  match ev with Requested (GeocodingRequest _) => true | _ => false end.

Definition is_weather_request (ev : event) : bool :=
  match ev with Requested (WeatherRequest _ _) => true | _ => false end.

Definition is_export (ev : event) : bool :=
  match ev with WroteCurrentCsv _ | WroteHistoricalCsv _ => true | _ => false end.

Definition is_error_log (ev : event) : bool :=
  match ev with
  | Logged l => match log_level_of l with ERROR => true | INFO => false end
  | _ => false
  end.

(** ** The world and its oracle *)

Record world := {
  db : store;
  steps : nat;           (* consultations of the oracle so far *)
  events : list event;   (* most recent first *)
}.

Record env := {
  (* lines 133-135 of weather_collector.py: the decoded answer, or the
     exception of requests.get / raise_for_status / json() / a subscript *)
  geocoding_api : nat -> string -> result (list geo_match);
  (* lines 177-179 and 236-238 *)
  weather_api : nat -> float -> float -> result weather_json;
  (* an INSERT that fails although no constraint is violated *)
  insert_fault : nat -> option exn;
  (* datetime.now() *)
  clock : nat -> datetime;
}.

(** ** The monad *)

Definition M (A : Type) : Type := world -> result A * world.

Definition ret {A : Type} (a : A) : M A := fun w => (Return a, w).

Definition raise {A : Type} (e : exn) : M A := fun w => (Raise e, w).

Definition bind {A B : Type} (m : M A) (k : A -> M B) : M B :=
  fun w =>
    match m w with
    | (Return a, w') => k a w'
    | (Raise e, w') => (Raise e, w')
    end.

(** [try: m except Exception as e: handler e] *)
Definition try_except {A : Type} (m : M A) (handler : exn -> M A) : M A :=
  fun w =>
    match m w with
    | (Return a, w') => (Return a, w')
    | (Raise e, w') => handler e w'
    end.

Definition lift {A : Type} (r : result A) : M A := fun w => (r, w).

Declare Scope py_scope.
Delimit Scope py_scope with py.
Notation "x <- m ;; k" := (bind m (fun x => k))
  (at level 100, m at next level, right associativity) : py_scope.
Notation "m ;; k" := (bind m (fun _ => k))
  (at level 100, right associativity) : py_scope.
Local Open Scope py_scope.

Definition emit (ev : event) : M unit :=
  fun w => (Return tt, {| db := db w; steps := steps w; events := ev :: events w |}).

(** The index of the next consultation of the oracle. *)
Definition tick : M nat :=
  fun w => (Return (steps w), {| db := db w; steps := S (steps w); events := events w |}).

Definition get_db : M store := fun w => (Return (db w), w).

Definition put_db (s : store) : M unit :=
  fun w => (Return tt, {| db := s; steps := steps w; events := events w |}).

Definition logger_error (l : log_record) : M unit := emit (Logged l).
Definition logger_info (l : log_record) : M unit := emit (Logged l).
Definition time_sleep (seconds : float) : M unit := emit (Slept seconds).

(** Sequencing of pure computations that may raise. *)
Definition rbind {A B : Type} (r : result A) (k : A -> result B) : result B :=
  match r with
  | Return a => k a
  | Raise e => Raise e
  end.

Notation "'let?' x := r 'in' k" := (rbind r (fun x => k))
  (at level 100, x name, r at next level, k at level 100, right associativity) : py_scope.

(** ** WeatherDataCollector *)

Section Collector.

Variable E : env.

(** [requests.get(geocoding_url, params)], [raise_for_status()], [json()] *)
Definition requests_get_geocoding (city : string) : M (list geo_match) :=
  t <- tick ;;
  emit (Requested (GeocodingRequest city)) ;;
  lift (geocoding_api E t city).

(** [requests.get(f"{base_url}/weather", params)], [raise_for_status()], [json()] *)
Definition requests_get_weather (lat lon : float) : M weather_json :=
  t <- tick ;;
  emit (Requested (WeatherRequest lat lon)) ;;
  lift (weather_api E t lat lon).

Definition datetime_now : M datetime :=
  t <- tick ;;
  ret (clock E t).

(** [SELECT * FROM city_coordinates WHERE city = ?] and [fetchone()] *)
Definition select_city_coordinates (city : string) : M (option coordinate_row) :=
  s <- get_db ;;
  ret (city_coordinates s !! city).

(** [cursor.execute(INSERT ...)] and [conn.commit()]: the statement either
    fails and leaves the database as it was, or adds the row. *)
Definition execute_insert (statement : store -> result store) : M unit :=
  t <- tick ;;
  match insert_fault E t with
  | Some e => raise e
  | None =>
      s <- get_db ;;
      s' <- lift (statement s) ;;
      put_db s'
  end.

Definition insert_into_city_coordinates (c : coords) (s : store) : result store :=
  match city_coordinates s !! c_city c with
  | Some _ => Raise (IntegrityError "UNIQUE constraint failed: city_coordinates.city")
  | None =>
      Return {| current_weather := current_weather s;
                historical_weather := historical_weather s;
                city_coordinates :=
                  <[c_city c := {| cc_country := c_country c;
                                   cc_latitude := c_lat c;
                                   cc_longitude := c_lon c |}]> (city_coordinates s) |}
  end.

Definition insert_into_current_weather (r : current_row) (s : store) : result store :=
  Return {| current_weather := current_weather s ++ [r];
            historical_weather := historical_weather s;
            city_coordinates := city_coordinates s |}.

Definition insert_into_historical_weather (r : historical_row) (s : store) : result store :=
  Return {| current_weather := current_weather s;
            historical_weather := historical_weather s ++ [r];
            city_coordinates := city_coordinates s |}.

Definition get_city_coordinates (city : string) : M (option coords) :=
  result <- select_city_coordinates city ;;
  match result with
  | Some row =>
      ret (Some {| c_city := city;
                   c_country := cc_country row;
                   c_lat := cc_latitude row;
                   c_lon := cc_longitude row |})
  | None =>
      try_except
        (data <- requests_get_geocoding city ;;
         match data with
         | city_data :: _ =>
             let coords := {| c_city := gm_name city_data;
                              c_country := gm_country city_data;
                              c_lat := gm_lat city_data;
                              c_lon := gm_lon city_data |} in
             execute_insert (insert_into_city_coordinates coords) ;;
             ret (Some coords)
         | [] => ret None
         end)
        (fun e =>
           logger_error (ErrorGettingCoordinates city e) ;;
           ret None)
  end.

(** The [weather_data] dictionary of [collect_current_weather]. *)
Definition current_weather_data (coords : coords) (data : weather_json)
  : result current_row :=
  let? v_dt := subscript "dt" (dt data) in
  let? v_temp := subscript "temp" (main_temp data) in
  let? v_feels_like := subscript "feels_like" (main_feels_like data) in
  let? v_humidity := subscript "humidity" (main_humidity data) in
  let? v_pressure := subscript "pressure" (main_pressure data) in
  let? v_all := subscript "all" (clouds_all data) in
  let? v_main := subscript "main" (weather0_main data) in
  let? v_description := subscript "description" (weather0_description data) in
  let? v_sunrise := subscript "sunrise" (sys_sunrise data) in
  let? v_sunset := subscript "sunset" (sys_sunset data) in
  Return {| cw_city := c_city coords;
            cw_country := c_country coords;
            cw_latitude := c_lat coords;
            cw_longitude := c_lon coords;
            cw_timestamp := fromtimestamp v_dt;
            cw_temperature := v_temp;
            cw_feels_like := v_feels_like;
            cw_humidity := v_humidity;
            cw_pressure := v_pressure;
            cw_wind_speed := get_default (wind_speed data) 0%float;
            cw_wind_direction := get_default (wind_deg data) 0;
            cw_visibility := get_default (visibility data) 0;
            cw_cloud_cover := v_all;
            cw_weather_main := v_main;
            cw_weather_description := v_description;
            cw_sunrise := fromtimestamp v_sunrise;
            cw_sunset := fromtimestamp v_sunset |}.

Definition store_current_weather (weather_data : current_row) : M unit :=
  execute_insert (insert_into_current_weather weather_data).

Definition store_historical_weather (weather_data : historical_row) : M unit :=
  execute_insert (insert_into_historical_weather weather_data).

Definition collect_current_weather (city : string) : M bool :=
  coords <- get_city_coordinates city ;;
  match coords with
  | None =>
      logger_error (ErrorNoCoordinates city) ;;
      ret false
  | Some coords =>
      try_except
        (data <- requests_get_weather (c_lat coords) (c_lon coords) ;;
         weather_data <- lift (current_weather_data coords data) ;;
         store_current_weather weather_data ;;
         logger_info (InfoCollectedCurrent city) ;;
         ret true)
        (fun e =>
           logger_error (ErrorCollectingCurrent city e) ;;
           ret false)
  end.

(** The [historical_data] dictionary built for day [i]. *)
Definition historical_data (coords : coords) (date : datetime) (i : Z)
  (data : weather_json) : result historical_row :=
  let? v_temp := subscript "temp" (main_temp data) in
  let? f_i := float_of_int i in
  let? v_feels_like := subscript "feels_like" (main_feels_like data) in
  let? v_humidity := subscript "humidity" (main_humidity data) in
  let? v_pressure := subscript "pressure" (main_pressure data) in
  let? f_i5 := float_of_int (i mod 5) in
  let? v_all := subscript "all" (clouds_all data) in
  let? v_main := subscript "main" (weather0_main data) in
  let? v_description := subscript "description" (weather0_description data) in
  Return {| hw_city := c_city coords;
            hw_latitude := c_lat coords;
            hw_longitude := c_lon coords;
            hw_timestamp := date;
            hw_temperature := (v_temp + f_i * 0.1)%float;
            hw_feels_like := (v_feels_like + f_i * 0.1)%float;
            hw_humidity := py_max 0 (py_min 100 (v_humidity + i mod 10));
            hw_pressure := (v_pressure + f_i5)%float;
            hw_wind_speed :=
              py_max0 (get_default (wind_speed data) 0 + f_i * 0.05)%float;
            hw_wind_direction := (get_default (wind_deg data) 0 + i * 2) mod 360;
            hw_cloud_cover := py_max 0 (py_min 100 (v_all + i mod 20));
            hw_weather_main := v_main;
            hw_weather_description := v_description |}.

(** One iteration of the loop of [collect_historical_weather]; the result
    tells whether [success_count] was incremented.  The local [timestamp]
    of the source is computed and never used. *)
Definition collect_historical_day (city : string) (coords : coords) (i : Z) : M bool :=
  now <- datetime_now ;;
  let date := minus_days now (i + 1) in
  try_except
    (data <- requests_get_weather (c_lat coords) (c_lon coords) ;;
     row <- lift (historical_data coords date i data) ;;
     store_historical_weather row ;;
     time_sleep 0.1%float ;;
     ret true)
    (fun e =>
       logger_error (ErrorCollectingHistorical city i e) ;;
       ret false).

(** [for i in range(days_back)], from day [i] on, [remaining] days left. *)
Fixpoint collect_historical_days (city : string) (coords : coords) (i : Z)
  (remaining : nat) (success_count : nat) : M nat :=
  match remaining with
  | O => ret success_count
  | S remaining' =>
      ok <- collect_historical_day city coords i ;;
      collect_historical_days city coords (i + 1) remaining'
        (if ok then S success_count else success_count)
  end.

Definition collect_historical_weather (city : string) (days_back : Z) : M bool :=
  coords <- get_city_coordinates city ;;
  match coords with
  | None =>
      logger_error (ErrorNoCoordinates city) ;;
      ret false
  | Some coords =>
      success_count <- collect_historical_days city coords 0 (Z.to_nat days_back) 0%nat ;;
      logger_info (InfoCollectedHistorical success_count days_back city) ;;
      ret (0 <? success_count)%nat
  end.

(** [export_to_csv(table)]; the result is the list of files written. *)
Definition export_to_csv (table : string) : M (list string) :=
  s <- get_db ;;
  exported1 <-
    (if (String.eqb table "current" || String.eqb table "both")%bool
     then emit (WroteCurrentCsv (current_weather s)) ;; ret ["data/current_weather.csv"]
     else ret []) ;;
  exported2 <-
    (if (String.eqb table "historical" || String.eqb table "both")%bool
     then emit (WroteHistoricalCsv (historical_weather s)) ;;
          ret (exported1 ++ ["data/historical_weather.csv"])
     else ret exported1) ;;
  logger_info InfoExported ;;
  ret exported2.

(** ** WeatherScheduler *)

Section Scheduler.

Variable cities : list string.            (* self.config.cities *)
Variable API_DELAY_SECONDS : float.       (* Config.API_DELAY_SECONDS *)

(** The numbers of the closing log line of a cycle. *)
Record summary := { succeeded : nat; attempted : nat }.

(** The body of the loop of [collect_all_current]. *)
Definition collect_city (city : string) (success_count : nat) : M nat :=
  try_except
    (ok <- collect_current_weather city ;;
     time_sleep API_DELAY_SECONDS ;;
     ret (if ok then S success_count else success_count))
    (fun e =>
       logger_error (ErrorCollectingWeather city e) ;;
       ret success_count).

Fixpoint collect_cities (cs : list string) (success_count : nat) : M nat :=
  match cs with
  | [] => ret success_count
  | city :: cs' =>
      success_count' <- collect_city city success_count ;;
      collect_cities cs' success_count'
  end.

Definition collect_all_current : M summary :=
  logger_info InfoStartingScheduled ;;
  success_count <- collect_cities cities 0%nat ;;
  logger_info (InfoCompleted success_count (length cities)) ;;
  (if (0 <? success_count)%nat then export_to_csv "both" ;; ret tt else ret tt) ;;
  ret {| succeeded := success_count; attempted := length cities |}.

End Scheduler.

End Collector.

(** ** Observations on a run *)

(** How many events of a kind the world has seen. *)
Definition count_events (p : event -> bool) (w : world) : nat :=
  length (List.filter p (events w)).

(** ** The ranges of a synthetic record *)

Definition clamp (x lo hi : Z) : Z := Z.max lo (Z.min hi x).

(** The bounds every stored synthetic record is to satisfy. *)
Definition in_range (r : historical_row) : Prop :=
  0 <= hw_humidity r <= 100 /\
  0 <= hw_cloud_cover r <= 100 /\
  0 <= hw_wind_direction r < 360.

(** ** Outcomes, read off the oracle *)

(** What day [i] of the historical loop comes to in world [w]: the record it
    stores, or the exception of the fetch, of the derivation or of the
    INSERT. *)
Definition day_outcome (E : env) (c : coords) (i : Z) (w : world) : result historical_row :=
  let? data := weather_api E (S (steps w)) (c_lat c) (c_lon c) in
  let? row := historical_data c (minus_days (clock E (steps w)) (i + 1)) i data in
  match insert_fault E (S (S (steps w))) with
  | Some e => Raise e
  | None => Return row
  end.

Definition day_succeeds (E : env) (c : coords) (i : Z) (w : world) : bool :=
  match day_outcome E c i w with
  | Return _ => true
  | Raise _ => false
  end.

(** The number of successful days among [remaining] days from day [i] on,
    each day taken in the world the days before it have left. *)
Fixpoint successful_days (E : env) (city : string) (c : coords) (i : Z)
  (remaining : nat) (w : world) : nat :=
  match remaining with
  | O => O
  | S remaining' =>
      ((if day_succeeds E c i w then 1 else 0) +
       successful_days E city c (i + 1) remaining'
         (snd (collect_historical_day E city c i w)))%nat
  end.

(** What the fetch and the store of [collect_current_weather] come to for the
    coordinates [c] in world [w1] (the world the resolution has left): the
    row stored, or the exception of the fetch, of the extraction or of the
    INSERT. *)
Definition fetch_outcome (E : env) (c : coords) (w1 : world) : result current_row :=
  let? data := weather_api E (steps w1) (c_lat c) (c_lon c) in
  let? row := current_weather_data c data in
  match insert_fault E (S (steps w1)) with
  | Some e => Raise e
  | None => Return row
  end.

(** The city is resolvable (coordinates are obtained) and fetchable (the
    fetch and the store succeed) in world [w]. *)
Definition resolvable_and_fetchable (E : env) (city : string) (w : world) : bool :=
  match get_city_coordinates E city w with
  | (Return (Some c), w1) =>
      match fetch_outcome E c w1 with
      | Return _ => true
      | Raise _ => false
      end
  | _ => false
  end.

(** The number of resolvable and fetchable cities of a cycle, each city
    taken in the world the cities before it have left. *)
Fixpoint collectable_count (E : env) (delay : float) (cs : list string) (w : world) : nat :=
  match cs with
  | [] => O
  | city :: cs' =>
      ((if resolvable_and_fetchable E city w then 1 else 0) +
       collectable_count E delay cs' (snd (collect_city E delay city 0%nat w)))%nat
  end.

(** The world once the opening log line of a cycle is written. *)
Definition cycle_started (w : world) : world :=
  {| db := db w; steps := steps w; events := Logged InfoStartingScheduled :: events w |}.


(** ** Concrete data used by the examples *)

Module Sample.

Definition fresh : world := {| db := empty_store; steps := 0; events := [] |}.

Definition London : geo_match :=
  {| gm_name := "London"; gm_country := "GB";
     gm_lat := 51.5%float; gm_lon := (-0.125)%float |}.

Definition London_coords : coords :=
  {| c_city := "London"; c_country := "GB";
     c_lat := 51.5%float; c_lon := (-0.125)%float |}.

Definition overcast : weather_json :=
  {| dt := Some 1700000000;
     main_temp := Some 10.5%float;
     main_feels_like := Some 9%float;
     main_humidity := Some 95;
     main_pressure := Some 1013%float;
     wind_speed := Some 3.25%float;
     wind_deg := Some 350;
     visibility := Some 10000;
     clouds_all := Some 90;
     weather0_main := Some "Clouds";
     weather0_description := Some "overcast clouds";
     sys_sunrise := Some 1699950000;
     sys_sunset := Some 1699983000 |}.

(** A geocoder that knows London under any capitalisation of its first
    letter and nothing else; the weather endpoint always answers. *)
Definition geocoder (q : string) : result (list geo_match) :=
  if (String.eqb q "London" || String.eqb q "london")%bool
  then Return [London] else Return [].

Definition fair_weather : env :=
  {| geocoding_api := fun _ q => geocoder q;
     weather_api := fun _ _ _ => Return overcast;
     insert_fault := fun _ => None;
     clock := fun _ => 1700000000000000 |}.

(** The weather endpoint is down for the request made at step 12: on a fresh
    database that is the fetch of day 3 of a historical collection (steps 0
    and 1 resolve the city, each successful day takes three steps). *)
Definition outage_on_day_3 : env :=
  {| geocoding_api := fun _ q => geocoder q;
     weather_api := fun t _ _ =>
       if Nat.eqb t 12 then Raise (RequestException "503 Server Error")
       else Return overcast;
     insert_fault := fun _ => None;
     clock := fun _ => 1700000000000000 |}.

(** The weather endpoint answers every request with an error. *)
Definition api_down : env :=
  {| geocoding_api := fun _ q => geocoder q;
     weather_api := fun _ _ _ => Raise (RequestException "503 Server Error");
     insert_fault := fun _ => None;
     clock := fun _ => 1700000000000000 |}.


(** The world after London has been resolved once on a fresh database. *)
Definition London_cached : world :=
  snd (get_city_coordinates fair_weather "London" fresh).

End Sample.

(** ** The rest of the two files, and the configuration they read *)

Definition is_sleep (ev : event) : bool :=
  match ev with Slept _ => true | _ => false end.

(** Every row the cache has in [w] is still there, unchanged, in [w']. *)
Definition cache_kept (w w' : world) : Prop :=
  forall (k : string) (r : coordinate_row),
    city_coordinates (db w) !! k = Some r -> city_coordinates (db w') !! k = Some r.

(** The rows a historical collection adds for the coordinates [c]. *)
Definition row_of (c : coords) (r : historical_row) : Prop :=
  hw_city r = c_city c /\ hw_latitude r = c_lat c /\ hw_longitude r = c_lon c.

(** The dictionary returned by [get_data_summary].  SQL leaves the order of
    SELECT DISTINCT open; the list below has one entry per city. *)
Record data_summary := {
  current_records : nat;
  historical_records : nat;
  summary_cities : list string;
  total_records : nat;
}.

Definition get_data_summary : M data_summary :=
  s <- get_db ;;
  let current_count := length (current_weather s) in
  let historical_count := length (historical_weather s) in
  let cities_with_data := remove_dups (map cw_city (current_weather s)) in
  ret {| current_records := current_count;
         historical_records := historical_count;
         summary_cities := cities_with_data;
         total_records := (current_count + historical_count)%nat |}.

(** [WeatherScheduler.run_once]; the result is the number in the line it
    prints. *)
Definition run_once (E : env) (cities : list string) (API_DELAY_SECONDS : float) : M nat :=
  collect_all_current E cities API_DELAY_SECONDS ;;
  summary <- get_data_summary ;;
  ret (total_records summary).

(** Python's [s.split(sep)] for a separator of one character. *)
Fixpoint split_on (sep : Ascii.ascii) (s : string) : list string :=
  match s with
  | EmptyString => [EmptyString]
  | String c s' =>
      if Ascii.eqb c sep then EmptyString :: split_on sep s'
      else match split_on sep s' with
           | piece :: pieces => String c piece :: pieces
           | [] => [String c EmptyString]
           end
  end.

(** How often a character occurs in a string. *)
Fixpoint occurrences (sep : Ascii.ascii) (s : string) : nat :=
  match s with
  | EmptyString => O
  | String c s' => ((if Ascii.eqb c sep then 1 else 0) + occurrences sep s')%nat
  end.

(** [Config.CITIES]: [os.getenv('CITIES', default).split(',')], from the
    value of the environment variable, None when it is not set. *)
Definition Config_CITIES (env_CITIES : option string) : list string :=
  split_on ","%char (get_default env_CITIES "New York,London,Tokyo,Paris,Sydney").

(** More concrete data. *)
Module Sample2.

(** An answer of the weather endpoint without [dt] and without the [sys]
    block. *)
Definition undated : weather_json :=
  {| dt := None;
     main_temp := Some 10.5%float;
     main_feels_like := Some 9%float;
     main_humidity := Some 95;
     main_pressure := Some 1013%float;
     wind_speed := None;
     wind_deg := None;
     visibility := None;
     clouds_all := Some 90;
     weather0_main := Some "Clouds";
     weather0_description := Some "overcast clouds";
     sys_sunrise := None;
     sys_sunset := None |}.


(** The geocoder is unreachable. *)
Definition offline : env :=
  {| geocoding_api := fun _ _ => Raise (RequestException "Connection refused");
     weather_api := fun _ _ _ => Raise (RequestException "Connection refused");
     insert_fault := fun _ => None;
     clock := fun _ => 1700000000000000 |}.

End Sample2.


(** * The same code without the simplifying assumptions

    The model above takes three things for granted: that the database can
    be opened and read, that the configured delay is a length [time.sleep]
    accepts, and that every date the code computes exists.  It also gives
    each JSON field the type of its column.  What is proved on it does not
    rest on these assumptions otherwise than through a fault of the
    environment.  The module [Full] embeds the resolver, the two collectors,
    the two stores and the loop of the cycle once more without them, for the
    properties that do:
    - opening the database and the SELECT can fail, at a step the oracle
      chooses; closing a connection is taken to succeed;
    - [time.sleep] raises for a negative or a NaN length, and for a very long
      one when the platform says so;
    - [datetime.now() - timedelta(days=...)] raises when the date leaves the
      years 1 to 9999; [date.timestamp()] and [datetime.fromtimestamp] depend
      on the platform and its time zone and are functions of the oracle that
      may raise;
    - a JSON number is a Python int or a Python float, and the arithmetic is
      Python's for each; SQLite refuses an int beyond 64 bits.
    A row holds the values bound to the INSERT statement. *)

Module Full.

Inductive exn : Type :=
| RequestException (msg : string)
| KeyError (key : string)
| ValueError (msg : string)
| OverflowError (msg : string)
| OSError (msg : string)
| IntegrityError (msg : string)
| OperationalError (msg : string).

Inductive result (A : Type) : Type :=
| Raise (e : exn)
| Return (a : A).
Arguments Raise {A} e.
Arguments Return {A} a.

Definition rbind {A B : Type} (r : result A) (k : A -> result B) : result B :=
  match r with
  | Return a => k a
  | Raise e => Raise e
  end.

Declare Scope full_scope.
Delimit Scope full_scope with full.
Notation "'let?' x := r 'in' k" := (rbind r (fun x => k))
  (at level 100, x name, r at next level, k at level 100, right associativity) : full_scope.
Local Open Scope full_scope.

(** ** Python numbers *)

Inductive number : Type :=
| PInt (z : Z)
| PFloat (f : float).

Definition float_of_int (z : Z) : result float :=
  if PrimFloat.is_infinity (nearest_float z)
  then Raise (OverflowError "int too large to convert to float")
  else Return (nearest_float z).

(** [n + x] for a float [x]. *)
Definition add_float (n : number) (x : float) : result float :=
  match n with
  | PInt z => let? f := float_of_int z in Return (f + x)%float
  | PFloat f => Return (f + x)%float
  end.

(** [n + k] for an int [k]. *)
Definition add_int (n : number) (k : Z) : result number :=
  match n with
  | PInt z => Return (PInt (z + k))
  | PFloat f => let? fk := float_of_int k in Return (PFloat (f + fk)%float)
  end.

(** [a < b].  An int is compared with a float through its nearest float,
    which is the int itself for 0 and 100, the only ints the code compares a
    float with. *)
Definition lt (a b : number) : bool :=
  match a, b with
  | PInt x, PInt y => x <? y
  | PInt x, PFloat g => PrimFloat.ltb (nearest_float x) g
  | PFloat f, PInt y => PrimFloat.ltb f (nearest_float y)
  | PFloat f, PFloat g => PrimFloat.ltb f g
  end.

(** [a == b], with the same remark. *)
Definition eq (a b : number) : bool :=
  match a, b with
  | PInt x, PInt y => x =? y
  | PInt x, PFloat g => PrimFloat.eqb (nearest_float x) g
  | PFloat f, PInt y => PrimFloat.eqb f (nearest_float y)
  | PFloat f, PFloat g => PrimFloat.eqb f g
  end.

(** The builtins [min(a, b)] and [max(a, b)]: the first argument is kept
    unless the second is strictly smaller (resp. larger). *)
Definition py_min (a b : number) : number := if lt b a then b else a.
Definition py_max (a b : number) : number := if lt a b then b else a.

(** [x % 360.0] on floats: the exact remainder of the division truncated
    towards zero ([fmod]), moved into the sign of the divisor by adding 360
    when it is negative; that addition rounds. *)
Definition float_mod_360 (x : float) : float :=
  match Prim2SF x with
  | S754_nan | S754_infinity _ => nan
  | S754_zero _ => 0%float
  | S754_finite negative m e =>
      let r := match e with
               | Zneg p => (Zpos m mod (360 * 2 ^ Zpos p), e)
               | _ => ((Zpos m * 2 ^ e) mod 360, 0)
               end in
      if fst r =? 0 then 0%float
      else if negative
           then (SF2Prim (binary_normalize prec emax (- fst r) (snd r) false) + 360)%float
           else SF2Prim (binary_normalize prec emax (fst r) (snd r) false)
  end.

(** [n % 360] *)
Definition mod_360 (n : number) : number :=
  match n with
  | PInt z => PInt (z mod 360)
  | PFloat f => PFloat (float_mod_360 f)
  end.

(** ** Dates *)

(** A [datetime] counts the microseconds since 0001-01-01 00:00:00, the
    smallest one; the largest is 9999-12-31 23:59:59.999999. *)
Definition max_datetime : datetime := 3652059 * microseconds_per_day - 1.

(** [d - timedelta(days=days)] *)
Definition minus_days (d : datetime) (days : Z) : result datetime :=
  if 999999999 <? Z.abs days
  then Raise (OverflowError "days must have magnitude <= 999999999")
  else
    let date := d - days * microseconds_per_day in
    if (date <? 0) || (max_datetime <? date)
    then Raise (OverflowError "date value out of range")
    else Return date.

(** ** Decoded JSON, rows, database *)

Record weather_json := {
  dt : option number;
  main_temp : option number;
  main_feels_like : option number;
  main_humidity : option number;
  main_pressure : option number;
  wind_speed : option number;
  wind_deg : option number;
  visibility : option number;
  clouds_all : option number;
  weather0_main : option string;
  weather0_description : option string;
  sys_sunrise : option number;
  sys_sunset : option number;
}.

Definition subscript {A : Type} (key : string) (field : option A) : result A :=
  match field with
  | Some v => Return v
  | None => Raise (KeyError key)
  end.

Record current_row := {
  cw_city : string;
  cw_country : string;
  cw_latitude : float;
  cw_longitude : float;
  cw_timestamp : datetime;
  cw_temperature : number;
  cw_feels_like : number;
  cw_humidity : number;
  cw_pressure : number;
  cw_wind_speed : number;
  cw_wind_direction : number;
  cw_visibility : number;
  cw_cloud_cover : number;
  cw_weather_main : string;
  cw_weather_description : string;
  cw_sunrise : datetime;
  cw_sunset : datetime;
}.

Record historical_row := {
  hw_city : string;
  hw_latitude : float;
  hw_longitude : float;
  hw_timestamp : datetime;
  hw_temperature : float;
  hw_feels_like : float;
  hw_humidity : number;
  hw_pressure : number;
  hw_wind_speed : number;
  hw_wind_direction : number;
  hw_cloud_cover : number;
  hw_weather_main : string;
  hw_weather_description : string;
}.

Record store := {
  current_weather : list current_row;
  historical_weather : list historical_row;
  city_coordinates : gmap string coordinate_row;
}.

Definition empty_store : store :=
  {| current_weather := []; historical_weather := []; city_coordinates := ∅ |}.

(** SQLite binds a Python int of at most 64 bits and any float. *)
Definition bindable (n : number) : bool :=
  match n with
  | PInt z => (- 2 ^ 63 <=? z) && (z <? 2 ^ 63)
  | PFloat _ => true
  end.

(** ** Events *)

Inductive log_record : Type :=
| ErrorGettingCoordinates (city : string) (e : exn)
| ErrorNoCoordinates (city : string)
| InfoCollectedCurrent (city : string)
| ErrorCollectingCurrent (city : string) (e : exn)
| ErrorCollectingHistorical (city : string) (day : Z) (e : exn)
| InfoCollectedHistorical (success_count : nat) (days_back : Z) (city : string)
| ErrorCollectingWeather (city : string) (e : exn).

Inductive event : Type :=
| Requested (r : request)
| Slept (seconds : float)
| Logged (l : log_record).

Definition is_geocoding_request (ev : event) : bool :=
  match ev with Requested (GeocodingRequest _) => true | _ => false end.

Definition is_weather_request (ev : event) : bool :=
  match ev with Requested (WeatherRequest _ _) => true | _ => false end.

Definition is_sleep (ev : event) : bool :=
  match ev with Slept _ => true | _ => false end.

(** ** The world, the oracle, the monad *)

Record world := {
  db : store;
  steps : nat;
  events : list event;
}.

Definition count_events (p : event -> bool) (w : world) : nat :=
  length (List.filter p (events w)).

Record env := {
  geocoding_api : nat -> string -> result (list geo_match);
  weather_api : nat -> float -> float -> result weather_json;
  (* sqlite3.connect, the SELECT or fetchone failing *)
  database_fault : nat -> option exn;
  (* sqlite3.connect, the INSERT or the commit failing for another reason
     than a constraint or an int too large *)
  insert_fault : nat -> option exn;
  (* datetime.now() *)
  clock : nat -> datetime;
  (* datetime.fromtimestamp(seconds), in the time zone of the platform *)
  fromtimestamp_api : number -> result datetime;
  (* date.timestamp() failing, in the time zone of the platform *)
  timestamp_fault : datetime -> option exn;
  (* time.sleep refusing a length of 10^9 seconds or more *)
  sleep_fault : float -> option exn;
}.

Definition M (A : Type) : Type := world -> result A * world.

Definition ret {A : Type} (a : A) : M A := fun w => (Return a, w).

Definition raise {A : Type} (e : exn) : M A := fun w => (Raise e, w).

Definition bind {A B : Type} (m : M A) (k : A -> M B) : M B :=
  fun w =>
    match m w with
    | (Return a, w') => k a w'
    | (Raise e, w') => (Raise e, w')
    end.

Definition try_except {A : Type} (m : M A) (handler : exn -> M A) : M A :=
  fun w =>
    match m w with
    | (Return a, w') => (Return a, w')
    | (Raise e, w') => handler e w'
    end.

Definition lift {A : Type} (r : result A) : M A := fun w => (r, w).

Notation "x <- m ;; k" := (bind m (fun x => k))
  (at level 100, m at next level, right associativity) : full_scope.
Notation "m ;; k" := (bind m (fun _ => k))
  (at level 100, right associativity) : full_scope.

Definition emit (ev : event) : M unit :=
  fun w => (Return tt, {| db := db w; steps := steps w; events := ev :: events w |}).

Definition tick : M nat :=
  fun w => (Return (steps w), {| db := db w; steps := S (steps w); events := events w |}).

Definition get_db : M store := fun w => (Return (db w), w).

Definition put_db (s : store) : M unit :=
  fun w => (Return tt, {| db := s; steps := steps w; events := events w |}).

Definition logger_error (l : log_record) : M unit := emit (Logged l).
Definition logger_info (l : log_record) : M unit := emit (Logged l).

(** A length [time.sleep] accepts on every platform: not NaN, not negative,
    and below 10^9 seconds.  The platform adds the length to what its clock
    reads and refuses the sum when it cannot count it in nanoseconds on 64
    bits (about 9.2 * 10^9 seconds): for a longer length the oracle tells. *)
Definition valid_sleep (seconds : float) : bool :=
  negb (PrimFloat.is_nan seconds) && negb (PrimFloat.ltb seconds 0)
  && PrimFloat.ltb seconds 1000000000.

(** ** WeatherDataCollector *)

Section Collector.

Variable E : env.

Definition requests_get_geocoding (city : string) : M (list geo_match) :=
  t <- tick ;;
  emit (Requested (GeocodingRequest city)) ;;
  lift (geocoding_api E t city).

Definition requests_get_weather (lat lon : float) : M weather_json :=
  t <- tick ;;
  emit (Requested (WeatherRequest lat lon)) ;;
  lift (weather_api E t lat lon).

Definition datetime_now : M datetime :=
  t <- tick ;;
  ret (clock E t).

Definition time_sleep (seconds : float) : M unit :=
  if PrimFloat.is_nan seconds then raise (ValueError "Invalid value NaN (not a number)")
  else if PrimFloat.ltb seconds 0 then raise (ValueError "sleep length must be non-negative")
  else if PrimFloat.ltb seconds 1000000000 then emit (Slept seconds)
  else match sleep_fault E seconds with
       | Some e => raise e
       | None => emit (Slept seconds)
       end.

(** [sqlite3.connect], [SELECT * FROM city_coordinates WHERE city = ?],
    [fetchone()] *)
Definition select_city_coordinates (city : string) : M (option coordinate_row) :=
  t <- tick ;;
  match database_fault E t with
  | Some e => raise e
  | None =>
      s <- get_db ;;
      ret (city_coordinates s !! city)
  end.

Definition execute_insert (statement : store -> result store) : M unit :=
  t <- tick ;;
  match insert_fault E t with
  | Some e => raise e
  | None =>
      s <- get_db ;;
      s' <- lift (statement s) ;;
      put_db s'
  end.

Definition insert_into_city_coordinates (c : coords) (s : store) : result store :=
  match city_coordinates s !! c_city c with
  | Some _ => Raise (IntegrityError "UNIQUE constraint failed: city_coordinates.city")
  | None =>
      Return {| current_weather := current_weather s;
                historical_weather := historical_weather s;
                city_coordinates :=
                  <[c_city c := {| cc_country := c_country c;
                                   cc_latitude := c_lat c;
                                   cc_longitude := c_lon c |}]> (city_coordinates s) |}
  end.

Definition too_large : exn :=
  OverflowError "Python int too large to convert to SQLite INTEGER".

Definition insert_into_current_weather (r : current_row) (s : store) : result store :=
  if bindable (cw_temperature r) && bindable (cw_feels_like r) && bindable (cw_humidity r)
     && bindable (cw_pressure r) && bindable (cw_wind_speed r)
     && bindable (cw_wind_direction r) && bindable (cw_visibility r)
     && bindable (cw_cloud_cover r)
  then Return {| current_weather := current_weather s ++ [r];
                 historical_weather := historical_weather s;
                 city_coordinates := city_coordinates s |}
  else Raise too_large.

Definition insert_into_historical_weather (r : historical_row) (s : store) : result store :=
  if bindable (hw_humidity r) && bindable (hw_pressure r) && bindable (hw_wind_speed r)
     && bindable (hw_wind_direction r) && bindable (hw_cloud_cover r)
  then Return {| current_weather := current_weather s;
                 historical_weather := historical_weather s ++ [r];
                 city_coordinates := city_coordinates s |}
  else Raise too_large.

Definition get_city_coordinates (city : string) : M (option coords) :=
  result <- select_city_coordinates city ;;
  match result with
  | Some row =>
      ret (Some {| c_city := city;
                   c_country := cc_country row;
                   c_lat := cc_latitude row;
                   c_lon := cc_longitude row |})
  | None =>
      try_except
        (data <- requests_get_geocoding city ;;
         match data with
         | city_data :: _ =>
             let coords := {| c_city := gm_name city_data;
                              c_country := gm_country city_data;
                              c_lat := gm_lat city_data;
                              c_lon := gm_lon city_data |} in
             execute_insert (insert_into_city_coordinates coords) ;;
             ret (Some coords)
         | [] => ret None
         end)
        (fun e =>
           logger_error (ErrorGettingCoordinates city e) ;;
           ret None)
  end.

Definition current_weather_data (coords : coords) (data : weather_json)
  : result current_row :=
  let? v_dt := subscript "dt" (dt data) in
  let? timestamp := fromtimestamp_api E v_dt in
  let? v_temp := subscript "temp" (main_temp data) in
  let? v_feels_like := subscript "feels_like" (main_feels_like data) in
  let? v_humidity := subscript "humidity" (main_humidity data) in
  let? v_pressure := subscript "pressure" (main_pressure data) in
  let? v_all := subscript "all" (clouds_all data) in
  let? v_main := subscript "main" (weather0_main data) in
  let? v_description := subscript "description" (weather0_description data) in
  let? v_sunrise := subscript "sunrise" (sys_sunrise data) in
  let? sunrise := fromtimestamp_api E v_sunrise in
  let? v_sunset := subscript "sunset" (sys_sunset data) in
  let? sunset := fromtimestamp_api E v_sunset in
  Return {| cw_city := c_city coords;
            cw_country := c_country coords;
            cw_latitude := c_lat coords;
            cw_longitude := c_lon coords;
            cw_timestamp := timestamp;
            cw_temperature := v_temp;
            cw_feels_like := v_feels_like;
            cw_humidity := v_humidity;
            cw_pressure := v_pressure;
            cw_wind_speed := get_default (wind_speed data) (PInt 0);
            cw_wind_direction := get_default (wind_deg data) (PInt 0);
            cw_visibility := get_default (visibility data) (PInt 0);
            cw_cloud_cover := v_all;
            cw_weather_main := v_main;
            cw_weather_description := v_description;
            cw_sunrise := sunrise;
            cw_sunset := sunset |}.

Definition store_current_weather (weather_data : current_row) : M unit :=
  execute_insert (insert_into_current_weather weather_data).

Definition store_historical_weather (weather_data : historical_row) : M unit :=
  execute_insert (insert_into_historical_weather weather_data).

Definition collect_current_weather (city : string) : M bool :=
  coords <- get_city_coordinates city ;;
  match coords with
  | None =>
      logger_error (ErrorNoCoordinates city) ;;
      ret false
  | Some coords =>
      try_except
        (data <- requests_get_weather (c_lat coords) (c_lon coords) ;;
         weather_data <- lift (current_weather_data coords data) ;;
         store_current_weather weather_data ;;
         logger_info (InfoCollectedCurrent city) ;;
         ret true)
        (fun e =>
           logger_error (ErrorCollectingCurrent city e) ;;
           ret false)
  end.

(** The [historical_data] dictionary built for day [i]. *)
Definition historical_data (coords : coords) (date : datetime) (i : Z)
  (data : weather_json) : result historical_row :=
  let? v_temp := subscript "temp" (main_temp data) in
  let? f_i := float_of_int i in
  let? temperature := add_float v_temp (f_i * 0.1) in
  let? v_feels_like := subscript "feels_like" (main_feels_like data) in
  let? feels_like := add_float v_feels_like (f_i * 0.1) in
  let? v_humidity := subscript "humidity" (main_humidity data) in
  let? humidity := add_int v_humidity (i mod 10) in
  let? v_pressure := subscript "pressure" (main_pressure data) in
  let? pressure := add_int v_pressure (i mod 5) in
  let? speed := add_float (get_default (wind_speed data) (PInt 0)) (f_i * 0.05) in
  let? direction := add_int (get_default (wind_deg data) (PInt 0)) (i * 2) in
  let? v_all := subscript "all" (clouds_all data) in
  let? clouds := add_int v_all (i mod 20) in
  let? v_main := subscript "main" (weather0_main data) in
  let? v_description := subscript "description" (weather0_description data) in
  Return {| hw_city := c_city coords;
            hw_latitude := c_lat coords;
            hw_longitude := c_lon coords;
            hw_timestamp := date;
            hw_temperature := temperature;
            hw_feels_like := feels_like;
            hw_humidity := py_max (PInt 0) (py_min (PInt 100) humidity);
            hw_pressure := pressure;
            hw_wind_speed := py_max (PInt 0) (PFloat speed);
            hw_wind_direction := mod_360 direction;
            hw_cloud_cover := py_max (PInt 0) (py_min (PInt 100) clouds);
            hw_weather_main := v_main;
            hw_weather_description := v_description |}.

(** Lines 221 and 222: the date of day [i] and its timestamp, before the
    try. *)
Definition day_date (now : datetime) (i : Z) : result datetime :=
  let? date := minus_days now (i + 1) in
  match timestamp_fault E date with
  | Some e => Raise e
  | None => Return date
  end.

(** One iteration of the loop of [collect_historical_weather]; the result
    tells whether [success_count] was incremented. *)
Definition collect_historical_day (city : string) (coords : coords) (i : Z) : M bool :=
  now <- datetime_now ;;
  date <- lift (day_date now i) ;;
  try_except
    (data <- requests_get_weather (c_lat coords) (c_lon coords) ;;
     row <- lift (historical_data coords date i data) ;;
     store_historical_weather row ;;
     time_sleep 0.1%float ;;
     ret true)
    (fun e =>
       logger_error (ErrorCollectingHistorical city i e) ;;
       ret false).

Fixpoint collect_historical_days (city : string) (coords : coords) (i : Z)
  (remaining : nat) (success_count : nat) : M nat :=
  match remaining with
  | O => ret success_count
  | S remaining' =>
      ok <- collect_historical_day city coords i ;;
      collect_historical_days city coords (i + 1) remaining'
        (if ok then S success_count else success_count)
  end.

Definition collect_historical_weather (city : string) (days_back : Z) : M bool :=
  coords <- get_city_coordinates city ;;
  match coords with
  | None =>
      logger_error (ErrorNoCoordinates city) ;;
      ret false
  | Some coords =>
      success_count <- collect_historical_days city coords 0 (Z.to_nat days_back) 0%nat ;;
      logger_info (InfoCollectedHistorical success_count days_back city) ;;
      ret (0 <? success_count)%nat
  end.

(** ** The loop of WeatherScheduler.collect_all_current *)

Section Scheduler.

Variable API_DELAY_SECONDS : float.

(** The body of the loop.  The handler is written twice because it sees
    [success_count] as the body has left it: incremented already when the
    exception comes from the sleep. *)
Definition collect_city (city : string) (success_count : nat) : M nat :=
  try_except
    (ok <- collect_current_weather city ;;
     let counted := if ok then S success_count else success_count in
     try_except
       (time_sleep API_DELAY_SECONDS ;; ret counted)
       (fun e =>
          logger_error (ErrorCollectingWeather city e) ;;
          ret counted))
    (fun e =>
       logger_error (ErrorCollectingWeather city e) ;;
       ret success_count).

Fixpoint collect_cities (cs : list string) (success_count : nat) : M nat :=
  match cs with
  | [] => ret success_count
  | city :: cs' =>
      success_count' <- collect_city city success_count ;;
      collect_cities cs' success_count'
  end.

End Scheduler.

End Collector.

(** ** Observations on a run of the full model *)

Definition cache_kept (w w' : world) : Prop :=
  forall (k : string) (r : coordinate_row),
    city_coordinates (db w) !! k = Some r -> city_coordinates (db w') !! k = Some r.

(** What day [i] comes to in world [w], when its date exists: the record it
    stores, or the exception of the fetch, of the derivation or of the
    INSERT. *)
Definition day_outcome (E : env) (c : coords) (i : Z) (w : world) : result historical_row :=
  let? date := day_date E (clock E (steps w)) i in
  let? data := weather_api E (S (steps w)) (c_lat c) (c_lon c) in
  let? row := historical_data c date i data in
  match insert_fault E (S (S (steps w))) with
  | Some e => Raise e
  | None =>
      let? _ := insert_into_historical_weather row (db w) in
      Return row
  end.

Definition day_succeeds (E : env) (c : coords) (i : Z) (w : world) : bool :=
  match day_outcome E c i w with
  | Return _ => true
  | Raise _ => false
  end.

Fixpoint successful_days (E : env) (city : string) (c : coords) (i : Z)
  (remaining : nat) (w : world) : nat :=
  match remaining with
  | O => O
  | S remaining' =>
      ((if day_succeeds E c i w then 1 else 0) +
       successful_days E city c (i + 1) remaining'
         (snd (collect_historical_day E city c i w)))%nat
  end.

(** ** The synthetic record in the words of the specification *)

Record observation := {
  temperature : number;
  feelsLike : number;
  humidity : number;
  pressure : number;
  windSpeed : number;
  windDirection : number;
  cloudCover : number;
  weatherMain : string;
  weatherDescription : string;
}.

Definition observed (data : weather_json) : option observation :=
  match main_temp data, main_feels_like data, main_humidity data, main_pressure data,
        clouds_all data, weather0_main data, weather0_description data with
  | Some t, Some f, Some h, Some p, Some c, Some m, Some d =>
      Some {| temperature := t; feelsLike := f; humidity := h; pressure := p;
              windSpeed := get_default (wind_speed data) (PInt 0);
              windDirection := get_default (wind_deg data) (PInt 0);
              cloudCover := c; weatherMain := m; weatherDescription := d |}
  | _, _, _, _, _, _, _ => None
  end.

(** The value of a number as a float, and a number plus an integer offset;
    the floats are the nearest ones. *)
Definition as_float (n : number) : float :=
  match n with
  | PInt z => nearest_float z
  | PFloat f => f
  end.

Definition plus (n : number) (k : Z) : number :=
  match n with
  | PInt z => PInt (z + k)
  | PFloat f => PFloat (f + nearest_float k)%float
  end.

(** [clamp x lo hi]: [x] when it lies strictly between the bounds, and
    otherwise the bound it has reached or passed; a NaN, which is below
    nothing, goes to [hi]. *)
Definition clamp (x : number) (lo hi : Z) : number :=
  if lt x (PInt hi)
  then (if lt (PInt lo) x then x else PInt lo)
  else PInt hi.

Definition synthetic_record (c : coords) (now : datetime) (i : Z) (o : observation)
  : historical_row :=
  {| hw_city := c_city c;
     hw_latitude := c_lat c;
     hw_longitude := c_lon c;
     hw_timestamp := now - (i + 1) * microseconds_per_day;
     hw_temperature := (as_float (temperature o) + nearest_float i * 0.1)%float;
     hw_feels_like := (as_float (feelsLike o) + nearest_float i * 0.1)%float;
     hw_humidity := clamp (plus (humidity o) (i mod 10)) 0 100;
     hw_pressure := plus (pressure o) (i mod 5);
     hw_wind_speed :=
       py_max (PInt 0) (PFloat (as_float (windSpeed o) + nearest_float i * 0.05)%float);
     hw_wind_direction := mod_360 (plus (windDirection o) (2 * i));
     hw_cloud_cover := clamp (plus (cloudCover o) (i mod 20)) 0 100;
     hw_weather_main := weatherMain o;
     hw_weather_description := weatherDescription o |}.

(** [lo <= v <= hi] and [lo <= v < hi], with Python's comparisons. *)
Definition between (lo hi : Z) (v : number) : Prop :=
  (lt (PInt lo) v || eq (PInt lo) v) && (lt v (PInt hi) || eq v (PInt hi)) = true.

Definition below (lo hi : Z) (v : number) : Prop :=
  (lt (PInt lo) v || eq (PInt lo) v) && lt v (PInt hi) = true.

Definition is_int (n : number) : Prop :=
  match n with PInt _ => True | PFloat _ => False end.

(** The ranges of a stored record; the wind direction is an integer exactly
    when the answer's is. *)
Definition in_range (row : historical_row) : Prop :=
  between 0 100 (hw_humidity row) /\
  between 0 100 (hw_cloud_cover row) /\
  (is_int (hw_wind_direction row) -> below 0 360 (hw_wind_direction row)).


(** [row] was built by line 241 from an answer of the weather endpoint for
    the place [c]. *)
Definition derived (E : env) (c : coords) (row : historical_row) : Prop :=
  exists (t : nat) (date : datetime) (i : Z) (data : weather_json),
    weather_api E t (c_lat c) (c_lon c) = Return data /\
    historical_data c date i data = Return row.

End Full.

(** Concrete data for the full model. *)
Module FullSample.

Definition fresh : Full.world :=
  {| Full.db := Full.empty_store; Full.steps := 0; Full.events := [] |}.

(** 2023-11-14 22:13:20, as microseconds since 0001-01-01. *)
Definition noon_2023 : datetime := (738837 * 86400 + 80000) * 1000000.

(** The conversions of the examples.  Integer seconds are converted as a
    platform in UTC converts them: those of the years 1 to 9999 are accepted.
    The examples hold no float seconds; this oracle refuses them.  As in
    UTC, [timestamp()] is refused for a date on the first day of year 1. *)
Definition utc_fromtimestamp (n : Full.number) : Full.result datetime :=
  match n with
  | Full.PInt z =>
      let d := (62135596800 + z) * 1000000 in
      if (0 <? d) && (d <=? Full.max_datetime) then Full.Return d
      else Full.Raise (Full.ValueError "year is out of range")
  | Full.PFloat _ => Full.Raise (Full.ValueError "Invalid value NaN (not a number)")
  end.

Definition utc_timestamp_fault (d : datetime) : option Full.exn :=
  if d <? microseconds_per_day then Some (Full.ValueError "year 0 is out of range")
  else None.

(** A platform that sleeps every length it can count. *)
Definition long_sleep_fault (seconds : float) : option Full.exn :=
  if PrimFloat.ltb seconds 9223372036 then None
  else Some (Full.OverflowError "timestamp too large to convert to C _PyTime_t").

Definition overcast : Full.weather_json :=
  {| Full.dt := Some (Full.PInt 1700000000);
     Full.main_temp := Some (Full.PFloat 10.5);
     Full.main_feels_like := Some (Full.PInt 9);
     Full.main_humidity := Some (Full.PInt 95);
     Full.main_pressure := Some (Full.PInt 1013);
     Full.wind_speed := Some (Full.PFloat 3.25);
     Full.wind_deg := Some (Full.PInt 350);
     Full.visibility := Some (Full.PInt 10000);
     Full.clouds_all := Some (Full.PInt 90);
     Full.weather0_main := Some "Clouds";
     Full.weather0_description := Some "overcast clouds";
     Full.sys_sunrise := Some (Full.PInt 1699950000);
     Full.sys_sunset := Some (Full.PInt 1699983000) |}.


Definition geocoder (q : string) : Full.result (list geo_match) :=
  if (String.eqb q "London" || String.eqb q "london")%bool
  then Full.Return [Sample.London] else Full.Return [].

(** Every request is answered with [answer], nothing fails. *)
Definition steady (answer : Full.weather_json) : Full.env :=
  {| Full.geocoding_api := fun _ q => geocoder q;
     Full.weather_api := fun _ _ _ => Full.Return answer;
     Full.database_fault := fun _ => None;
     Full.insert_fault := fun _ => None;
     Full.clock := fun _ => noon_2023;
     Full.fromtimestamp_api := utc_fromtimestamp;
     Full.timestamp_fault := utc_timestamp_fault;
     Full.sleep_fault := long_sleep_fault |}.

(** The same with a [timestamp()] that accepts every date. *)
Definition steady_in_any_zone (answer : Full.weather_json) : Full.env :=
  {| Full.geocoding_api := fun _ q => geocoder q;
     Full.weather_api := fun _ _ _ => Full.Return answer;
     Full.database_fault := fun _ => None;
     Full.insert_fault := fun _ => None;
     Full.clock := fun _ => noon_2023;
     Full.fromtimestamp_api := utc_fromtimestamp;
     Full.timestamp_fault := fun _ => None;
     Full.sleep_fault := long_sleep_fault |}.

(** The weather endpoint is down for the request made at step 13: on a fresh
    database that is the fetch of day 3 of a historical collection (steps 0
    to 2 resolve the city, each successful day takes three steps, the
    request being the second). *)
Definition outage_on_day_3 : Full.env :=
  {| Full.geocoding_api := fun _ q => geocoder q;
     Full.weather_api := fun t _ _ =>
       if Nat.eqb t 13 then Full.Raise (Full.RequestException "503 Server Error")
       else Full.Return overcast;
     Full.database_fault := fun _ => None;
     Full.insert_fault := fun _ => None;
     Full.clock := fun _ => noon_2023;
     Full.fromtimestamp_api := utc_fromtimestamp;
     Full.timestamp_fault := utc_timestamp_fault;
     Full.sleep_fault := long_sleep_fault |}.

(** The weather endpoint is down throughout. *)
Definition api_down : Full.env :=
  {| Full.geocoding_api := fun _ q => geocoder q;
     Full.weather_api := fun _ _ _ => Full.Raise (Full.RequestException "503 Server Error");
     Full.database_fault := fun _ => None;
     Full.insert_fault := fun _ => None;
     Full.clock := fun _ => noon_2023;
     Full.fromtimestamp_api := utc_fromtimestamp;
     Full.timestamp_fault := utc_timestamp_fault;
     Full.sleep_fault := long_sleep_fault |}.

(** The database file is locked by another process. *)
Definition locked : Full.env :=
  {| Full.geocoding_api := fun _ q => geocoder q;
     Full.weather_api := fun _ _ _ => Full.Return overcast;
     Full.database_fault := fun _ => Some (Full.OperationalError "database is locked");
     Full.insert_fault := fun _ => None;
     Full.clock := fun _ => noon_2023;
     Full.fromtimestamp_api := utc_fromtimestamp;
     Full.timestamp_fault := utc_timestamp_fault;
     Full.sleep_fault := long_sleep_fault |}.

(** The world after London has been resolved once on a fresh database. *)
Definition London_cached : Full.world :=
  snd (Full.get_city_coordinates (steady overcast) "London" fresh).

End FullSample.

(** * Properties *)

Ltac run_monad :=
  unfold bind, try_except, ret, raise, lift, emit, tick, get_db, put_db,
    logger_error, logger_info, time_sleep; simpl.

(** ** Coordinate resolution *)

Section Resolution.

Variable E : env.



(** What the resolver does when the INSERT into the cache hits a row that
    already holds the key: the IntegrityError is caught and logged, the row
    of the first writer stays as it is, and the resolver returns None
    although the cache holds coordinates under the canonical name. *)
Lemma get_city_coordinates_duplicate_key (city : string) (w : world)
  (m : geo_match) (rest : list geo_match) (first_writer : coordinate_row) :
  city_coordinates (db w) !! city = None ->
  geocoding_api E (steps w) city = Return (m :: rest) ->
  insert_fault E (S (steps w)) = None ->
  city_coordinates (db w) !! gm_name m = Some first_writer ->
  get_city_coordinates E city w =
    (Return None,
     {| db := db w;
        steps := S (S (steps w));
        events :=
          Logged (ErrorGettingCoordinates city
                    (IntegrityError "UNIQUE constraint failed: city_coordinates.city"))
          :: Requested (GeocodingRequest city) :: events w |}).
Proof.
  intros Hmiss Hgeo Hfault Hdup.
  unfold get_city_coordinates, select_city_coordinates, requests_get_geocoding,
    execute_insert, insert_into_city_coordinates.
  run_monad. rewrite Hmiss, Hgeo. simpl. rewrite Hfault. simpl.
  rewrite Hdup. reflexivity.
Qed.

End Resolution.



(** ** Synthetic historical records *)

Lemma py_clamp (x : Z) : py_max 0 (py_min 100 x) = clamp x 0 100.
Proof.
  unfold py_max, py_min, clamp.
  destruct (x <? 100) eqn:Hx; [apply Z.ltb_lt in Hx | apply Z.ltb_ge in Hx].
  - destruct (0 <? x) eqn:H0; [apply Z.ltb_lt in H0 | apply Z.ltb_ge in H0]; lia.
  - simpl. lia.
Qed.

Lemma clamp_bounds (x : Z) : 0 <= clamp x 0 100 <= 100.
Proof. unfold clamp. lia. Qed.


Lemma historical_data_in_range (c : coords) (date : datetime) (i : Z)
  (data : weather_json) (row : historical_row) :
  historical_data c date i data = Return row -> in_range row.
Proof.
  unfold historical_data, rbind, subscript. intros H.
  destruct (main_temp data); try discriminate.
  destruct (float_of_int i); try discriminate.
  destruct (main_feels_like data); try discriminate.
  destruct (main_humidity data); try discriminate.
  destruct (main_pressure data); try discriminate.
  destruct (float_of_int (i mod 5)); try discriminate.
  destruct (clouds_all data); try discriminate.
  destruct (weather0_main data); try discriminate.
  destruct (weather0_description data); try discriminate.
  injection H as <-. unfold in_range. simpl. rewrite !py_clamp.
  repeat split; try apply clamp_bounds; apply Z.mod_pos_bound; lia.
Qed.

Section Historical.

Variable E : env.

(** One day, computed: a successful day appends its record and sleeps, a
    failed day logs the exception and leaves the database as it is. *)
Lemma collect_historical_day_outcome (city : string) (c : coords) (i : Z) (w : world) :
  match day_outcome E c i w with
  | Return row =>
      collect_historical_day E city c i w =
        (Return true,
         {| db := {| current_weather := current_weather (db w);
                     historical_weather := historical_weather (db w) ++ [row];
                     city_coordinates := city_coordinates (db w) |};
            steps := S (S (S (steps w)));
            events := Slept 0.1%float
                      :: Requested (WeatherRequest (c_lat c) (c_lon c)) :: events w |})
  | Raise e =>
      exists n,
      collect_historical_day E city c i w =
        (Return false,
         {| db := db w;
            steps := n;
            events := Logged (ErrorCollectingHistorical city i e)
                      :: Requested (WeatherRequest (c_lat c) (c_lon c)) :: events w |})
  end.
Proof.
  unfold day_outcome, collect_historical_day, datetime_now, requests_get_weather,
    store_historical_weather, execute_insert, insert_into_historical_weather.
  run_monad.
  destruct (weather_api E (S (steps w)) (c_lat c) (c_lon c)) as [e|data]; simpl.
  { eexists. reflexivity. }
  destruct (historical_data c (minus_days (clock E (steps w)) (i + 1)) i data)
    as [e|row]; simpl.
  { eexists. reflexivity. }
  destruct (insert_fault E (S (S (steps w)))) as [e|]; simpl.
  { eexists. reflexivity. }
  reflexivity.
Qed.

End Historical.

(** ** What each routine leaves alone *)

Section Frames.

Variable E : env.

(** Resolution never raises, writes to neither observation table, and issues
    no weather request. *)
Lemma get_city_coordinates_frame (city : string) (w : world) :
  exists o : option coords,
    fst (get_city_coordinates E city w) = Return o /\
    current_weather (db (snd (get_city_coordinates E city w))) = current_weather (db w) /\
    historical_weather (db (snd (get_city_coordinates E city w))) =
      historical_weather (db w) /\
    count_events is_weather_request (snd (get_city_coordinates E city w)) =
      count_events is_weather_request w.
Proof.
  unfold get_city_coordinates, select_city_coordinates, requests_get_geocoding,
    execute_insert, insert_into_city_coordinates.
  run_monad.
  destruct (city_coordinates (db w) !! city) as [row|]; simpl.
  { eexists. repeat split; reflexivity. }
  destruct (geocoding_api E (steps w) city) as [e|[|m rest]]; simpl;
    try (eexists; repeat split; reflexivity).
  destruct (insert_fault E (S (steps w))) as [e|]; simpl;
    try (eexists; repeat split; reflexivity).
  destruct (city_coordinates (db w) !! gm_name m) as [other|]; simpl;
    eexists; repeat split; reflexivity.
Qed.

(** One day of the historical loop: it returns whether the day succeeded,
    appends one record in range exactly then, and always issues one weather
    request. *)
Lemma collect_historical_day_frame (city : string) (c : coords) (i : Z) (w : world) :
  let w' := snd (collect_historical_day E city c i w) in
  fst (collect_historical_day E city c i w) = Return (day_succeeds E c i w) /\
  (exists new,
     historical_weather (db w') = historical_weather (db w) ++ new /\
     length new = (if day_succeeds E c i w then 1 else 0)%nat /\
     Forall in_range new) /\
  current_weather (db w') = current_weather (db w) /\
  city_coordinates (db w') = city_coordinates (db w) /\
  count_events is_weather_request w' = S (count_events is_weather_request w).
Proof.
  pose proof (collect_historical_day_outcome E city c i w) as Hday.
  unfold day_succeeds.
  destruct (day_outcome E c i w) as [e|row] eqn:Hout.
  - destruct Hday as [n ->]. simpl. split; [reflexivity|]. split.
    + exists []. rewrite app_nil_r. repeat split. constructor.
    + repeat split.
  - rewrite Hday. simpl. split; [reflexivity|]. split.
    + exists [row]. repeat split. constructor; [|constructor].
      unfold day_outcome, rbind in Hout.
      destruct (weather_api E (S (steps w)) (c_lat c) (c_lon c)); try discriminate.
      destruct (historical_data c (minus_days (clock E (steps w)) (i + 1)) i a)
        as [e|row'] eqn:Hrow; try discriminate.
      destruct (insert_fault E (S (S (steps w)))); try discriminate.
      injection Hout as <-. eapply historical_data_in_range, Hrow.
    + repeat split.
Qed.

(** The whole loop: no day aborts it. *)
Lemma collect_historical_days_frame (city : string) (c : coords) (remaining : nat) :
  forall (i : Z) (success_count : nat) (w : world),
  let w' := snd (collect_historical_days E city c i remaining success_count w) in
  fst (collect_historical_days E city c i remaining success_count w) =
    Return (success_count + successful_days E city c i remaining w)%nat /\
  (exists new,
     historical_weather (db w') = historical_weather (db w) ++ new /\
     length new = successful_days E city c i remaining w /\
     Forall in_range new) /\
  current_weather (db w') = current_weather (db w) /\
  city_coordinates (db w') = city_coordinates (db w) /\
  count_events is_weather_request w' =
    (count_events is_weather_request w + remaining)%nat.
Proof.
  induction remaining as [|n IH]; intros i success_count w; simpl.
  - unfold ret. simpl. split; [f_equal; lia|]. split.
    + exists []. rewrite app_nil_r. repeat split. constructor.
    + repeat split. lia.
  - destruct (collect_historical_day_frame city c i w)
      as (Hres & (new1 & Hhist1 & Hlen1 & Hrange1) & Hcur1 & Hcache1 & Hreq1).
    unfold bind.
    destruct (collect_historical_day E city c i w) as [r w1] eqn:Hday.
    simpl in Hres, Hhist1, Hcur1, Hcache1, Hreq1. subst r.
    destruct (IH (i + 1) (if day_succeeds E c i w then S success_count else success_count) w1)
      as (Hres2 & (new2 & Hhist2 & Hlen2 & Hrange2) & Hcur2 & Hcache2 & Hreq2).
    split.
    { rewrite Hres2. f_equal. simpl. destruct (day_succeeds E c i w); lia. }
    split.
    { exists (new1 ++ new2). rewrite Hhist2, Hhist1, app_assoc. repeat split.
      - rewrite length_app, Hlen1, Hlen2. simpl. reflexivity.
      - apply Forall_app. split; assumption. }
    repeat split.
    + rewrite Hcur2. exact Hcur1.
    + rewrite Hcache2. exact Hcache1.
    + rewrite Hreq2, Hreq1. lia.
Qed.

End Frames.

(** ** Historical collection as a whole *)

Section HistoricalCollection.

Variable E : env.


End HistoricalCollection.


(** ** Current weather and the cycle *)

Section Cycle.

Variable E : env.
Variable delay : float.

(** [collect_current_weather], computed from the resolution and from the
    outcome of fetch and store. *)
Lemma collect_current_weather_outcome (city : string) (w : world) :
  match get_city_coordinates E city w with
  | (Return (Some c), w1) =>
      match fetch_outcome E c w1 with
      | Return row =>
          collect_current_weather E city w =
            (Return true,
             {| db := {| current_weather := current_weather (db w1) ++ [row];
                         historical_weather := historical_weather (db w1);
                         city_coordinates := city_coordinates (db w1) |};
                steps := S (S (steps w1));
                events := Logged (InfoCollectedCurrent city)
                          :: Requested (WeatherRequest (c_lat c) (c_lon c))
                          :: events w1 |})
      | Raise e =>
          exists n,
          collect_current_weather E city w =
            (Return false,
             {| db := db w1;
                steps := n;
                events := Logged (ErrorCollectingCurrent city e)
                          :: Requested (WeatherRequest (c_lat c) (c_lon c))
                          :: events w1 |})
      end
  | (Return None, w1) =>
      collect_current_weather E city w =
        (Return false,
         {| db := db w1; steps := steps w1;
            events := Logged (ErrorNoCoordinates city) :: events w1 |})
  | (Raise e, w1) => collect_current_weather E city w = (Raise e, w1)
  end.
Proof.
  destruct (get_city_coordinates E city w) as [[e|[c|]] w1] eqn:Hget;
    unfold collect_current_weather, bind; rewrite Hget; try reflexivity.
  unfold fetch_outcome, requests_get_weather, store_current_weather,
    execute_insert, insert_into_current_weather.
  run_monad.
  destruct (weather_api E (steps w1) (c_lat c) (c_lon c)) as [e|data]; simpl.
  { eexists. reflexivity. }
  destruct (current_weather_data c data) as [e|row]; simpl.
  { eexists. reflexivity. }
  destruct (insert_fault E (S (steps w1))) as [e|]; simpl.
  { eexists. reflexivity. }
  reflexivity.
Qed.

(** [collect_current_weather] never raises: it returns whether the city was
    resolvable and fetchable, adds one row exactly then, and exports
    nothing. *)
Lemma collect_current_weather_frame (city : string) (w : world) :
  let w' := snd (collect_current_weather E city w) in
  fst (collect_current_weather E city w) = Return (resolvable_and_fetchable E city w) /\
  (exists new,
     current_weather (db w') = current_weather (db w) ++ new /\
     length new = (if resolvable_and_fetchable E city w then 1 else 0)%nat) /\
  count_events is_export w' = count_events is_export
                                (snd (get_city_coordinates E city w)).
Proof.
  pose proof (collect_current_weather_outcome city w) as Hout.
  destruct (get_city_coordinates_frame E city w) as (o & Hres & Hcur & _).
  unfold resolvable_and_fetchable.
  destruct (get_city_coordinates E city w) as [r w1]. simpl in Hres, Hcur. subst r.
  destruct o as [c|].
  - destruct (fetch_outcome E c w1) as [e|row].
    + destruct Hout as [n ->]. simpl. repeat split.
      exists []. rewrite app_nil_r. split; [exact Hcur | reflexivity].
    + rewrite Hout. simpl. repeat split.
      exists [row]. rewrite Hcur. split; reflexivity.
  - rewrite Hout. simpl. repeat split.
    exists []. rewrite app_nil_r. split; [exact Hcur | reflexivity].
Qed.

(** The loop body of the cycle, computed from [collect_current_weather]. *)
Lemma collect_city_outcome (city : string) (success_count : nat) (w : world) :
  collect_city E delay city success_count w =
    match collect_current_weather E city w with
    | (Return ok, w1) =>
        (Return (if ok then S success_count else success_count),
         {| db := db w1; steps := steps w1; events := Slept delay :: events w1 |})
    | (Raise e, w1) =>
        (Return success_count,
         {| db := db w1; steps := steps w1;
            events := Logged (ErrorCollectingWeather city e) :: events w1 |})
    end.
Proof.
  unfold collect_city. run_monad.
  destruct (collect_current_weather E city w) as [[e|ok] w1]; reflexivity.
Qed.

(** The except branch of the loop body is never taken. *)
Lemma collect_city_sleeps (city : string) (success_count : nat) (w : world) :
  collect_city E delay city success_count w =
    (Return (if resolvable_and_fetchable E city w
             then S success_count else success_count),
     {| db := db (snd (collect_current_weather E city w));
        steps := steps (snd (collect_current_weather E city w));
        events := Slept delay :: events (snd (collect_current_weather E city w)) |}).
Proof.
  rewrite collect_city_outcome.
  destruct (collect_current_weather_frame city w) as (Hres & _).
  destruct (collect_current_weather E city w) as [r w1]. simpl in Hres. subst r.
  reflexivity.
Qed.

(** The world a city leaves does not depend on the count so far. *)
Lemma collect_city_world (city : string) (n m : nat) (w : world) :
  snd (collect_city E delay city n w) = snd (collect_city E delay city m w).
Proof. rewrite !collect_city_sleeps. reflexivity. Qed.

(** Resolution writes no CSV file. *)
Lemma get_city_coordinates_no_export (city : string) (w : world) :
  count_events is_export (snd (get_city_coordinates E city w)) = count_events is_export w.
Proof.
  unfold get_city_coordinates, select_city_coordinates, requests_get_geocoding,
    execute_insert, insert_into_city_coordinates.
  run_monad.
  destruct (city_coordinates (db w) !! city) as [row|]; simpl; [reflexivity|].
  destruct (geocoding_api E (steps w) city) as [e|[|m rest]]; simpl; try reflexivity.
  destruct (insert_fault E (S (steps w))) as [e|]; simpl; try reflexivity.
  destruct (city_coordinates (db w) !! gm_name m) as [other|]; reflexivity.
Qed.

(** The loop of the cycle counts the resolvable and fetchable cities, adds
    one row for each of them and writes no CSV file. *)
Lemma collect_cities_frame (cs : list string) :
  forall (success_count : nat) (w : world),
  let w' := snd (collect_cities E delay cs success_count w) in
  fst (collect_cities E delay cs success_count w) =
    Return (success_count + collectable_count E delay cs w)%nat /\
  (exists new,
     current_weather (db w') = current_weather (db w) ++ new /\
     length new = collectable_count E delay cs w) /\
  count_events is_export w' = count_events is_export w.
Proof.
  induction cs as [|city cs IH]; intros n w; simpl.
  - unfold ret. simpl. split; [f_equal; lia|]. split; [|reflexivity].
    exists []. rewrite app_nil_r. split; reflexivity.
  - unfold bind. rewrite (collect_city_world city 0 n w).
    rewrite collect_city_sleeps.
    destruct (collect_current_weather_frame city w)
      as (_ & (new1 & Hcur1 & Hlen1) & Hexp1).
    rewrite get_city_coordinates_no_export in Hexp1.
    set (w1 := {| db := db (snd (collect_current_weather E city w));
                  steps := steps (snd (collect_current_weather E city w));
                  events := Slept delay :: events (snd (collect_current_weather E city w)) |}).
    destruct (IH (if resolvable_and_fetchable E city w then S n else n) w1)
      as (Hres2 & (new2 & Hcur2 & Hlen2) & Hexp2).
    simpl. split.
    { rewrite Hres2. f_equal. destruct (resolvable_and_fetchable E city w); lia. }
    split.
    { exists (new1 ++ new2). rewrite Hcur2. unfold w1 at 1. simpl.
      rewrite Hcur1, app_assoc, length_app, Hlen1, Hlen2. split; reflexivity. }
    rewrite Hexp2. unfold w1, count_events. simpl. exact Hexp1.
Qed.

(** A cycle over [l1 ++ l2] is the cycle over [l1] followed by the cycle over
    [l2]: no city stops the loop. *)
Lemma collect_cities_app (l1 l2 : list string) (success_count : nat) (w : world) :
  collect_cities E delay (l1 ++ l2) success_count w =
    collect_cities E delay l2
      (success_count + collectable_count E delay l1 w)%nat
      (snd (collect_cities E delay l1 success_count w)).
Proof.
  revert success_count w. induction l1 as [|city l1 IH]; intros n w; simpl.
  - unfold ret. simpl. f_equal. lia.
  - unfold bind. rewrite (collect_city_world city 0 n w).
    rewrite collect_city_sleeps. simpl. rewrite IH. f_equal.
    destruct (resolvable_and_fetchable E city w); lia.
Qed.

End Cycle.

(** ** The collection cycle *)

Section CollectionCycle.

Variable E : env.
Variable delay : float.

(** A cycle always returns its summary; it exports exactly when at least one
    city succeeded. *)
Lemma collect_all_current_exports (cities : list string) (w : world) :
  let K := collectable_count E delay cities (cycle_started w) in
  let w' := snd (collect_all_current E cities delay w) in
  fst (collect_all_current E cities delay w) =
    Return {| succeeded := K; attempted := length cities |} /\
  db w' = db (snd (collect_cities E delay cities 0%nat (cycle_started w))) /\
  count_events is_export w' =
    (count_events is_export w + (if (0 <? K)%nat then 2 else 0))%nat.
Proof.
  intros K w'. subst w'. unfold collect_all_current, export_to_csv.
  run_monad. fold (cycle_started w).
  destruct (collect_cities_frame E delay cities 0%nat (cycle_started w))
    as (Hres & _ & Hexp).
  destruct (collect_cities E delay cities 0%nat (cycle_started w)) as [r w1].
  simpl in Hres, Hexp. subst r. simpl. fold K.
  unfold count_events in *. simpl in Hexp.
  destruct (0 <? K)%nat; simpl; repeat split; try reflexivity; rewrite Hexp; lia.
Qed.

(** C2: a cycle over N cities of which K are resolvable and fetchable (each
    when its turn comes) reports succeeded = K and attempted = N and adds
    exactly K rows to [current_weather]. *)
Theorem collect_all_current_counts (cities : list string) (w : world) (N K : nat) :
  length cities = N ->
  collectable_count E delay cities (cycle_started w) = K ->
  let w' := snd (collect_all_current E cities delay w) in
  fst (collect_all_current E cities delay w) =
    Return {| succeeded := K; attempted := N |} /\
  exists new : list current_row,
    current_weather (db w') = current_weather (db w) ++ new /\ length new = K.
Proof.
  intros HN HK w'.
  destruct (collect_all_current_exports cities w) as (Hres & Hdb & _).
  rewrite HN, HK in Hres. split; [exact Hres|].
  subst w'. rewrite Hdb.
  destruct (collect_cities_frame E delay cities 0%nat (cycle_started w))
    as (_ & (new & Hcur & Hlen) & _).
  exists new. rewrite Hcur, Hlen. split; [reflexivity | exact HK].
Qed.

(** C6: a cycle over ["Testville"] in which the geocoder is asked and knows
    no match reports attempted = 1 and succeeded = 0, leaves every table as
    it was and writes no CSV file. *)
Theorem collect_all_current_unknown_city (w : world) :
  city_coordinates (db w) !! "Testville" = None ->
  geocoding_api E (steps w) "Testville" = Return [] ->
  let w' := snd (collect_all_current E ["Testville"] delay w) in
  fst (collect_all_current E ["Testville"] delay w) =
    Return {| succeeded := 0; attempted := 1 |} /\
  db w' = db w /\
  count_events is_export w' = count_events is_export w /\
  events w' =
    [Logged (InfoCompleted 0 1); Slept delay; Logged (ErrorNoCoordinates "Testville");
     Requested (GeocodingRequest "Testville"); Logged InfoStartingScheduled] ++ events w.
Proof.
  intros Hmiss Hgeo w'. subst w'.
  unfold collect_all_current, collect_cities, collect_city, collect_current_weather,
    get_city_coordinates, select_city_coordinates, requests_get_geocoding.
  run_monad. rewrite Hmiss. simpl. rewrite Hgeo. simpl. repeat split.
Qed.


End CollectionCycle.

(** Witness for C2: London is collected; Testville is unknown to the
    geocoder; "london" is answered with the canonical name "London", whose
    row is in the cache by then, so its resolution fails. *)
Lemma collect_all_current_counts_witness :
  let run := collect_all_current Sample.fair_weather ["London"; "Testville"; "london"]
               1%float Sample.fresh in
  fst run = Return {| succeeded := 1; attempted := 3 |} /\
  exists new : list current_row,
    current_weather (db (snd run)) = current_weather (db Sample.fresh) ++ new /\
    length new = 1%nat.
Proof.
  apply (collect_all_current_counts Sample.fair_weather 1%float
           ["London"; "Testville"; "london"] Sample.fresh 3 1).
  - reflexivity.
  - vm_compute. reflexivity.
Defined.

(** Witness for C6: the sample geocoder does not know Testville. *)
Lemma collect_all_current_unknown_city_witness :
  let run := collect_all_current Sample.fair_weather ["Testville"] 1%float Sample.fresh in
  fst run = Return {| succeeded := 0; attempted := 1 |} /\
  db (snd run) = empty_store /\
  count_events is_export (snd run) = 0%nat.
Proof.
  destruct (collect_all_current_unknown_city Sample.fair_weather 1%float Sample.fresh)
    as (Hres & Hdb & Hexp & _).
  - reflexivity.
  - reflexivity.
  - repeat split; assumption.
Defined.



(** A cycle over an unknown and a known city, in the order of the events:
    the delay follows the failed city as it follows the collected one. *)
Example delay_after_failed_and_collected_city :
  rev (events (snd (collect_all_current Sample.fair_weather ["Testville"; "London"]
                      1%float Sample.London_cached))) =
    [Requested (GeocodingRequest "London");
     Logged InfoStartingScheduled;
     Requested (GeocodingRequest "Testville");
     Logged (ErrorNoCoordinates "Testville");
     Slept 1%float;
     Requested (WeatherRequest 51.5%float (-0.125)%float);
     Logged (InfoCollectedCurrent "London");
     Slept 1%float;
     Logged (InfoCompleted 1 2);
     WroteCurrentCsv
       (current_weather
          (db (snd (collect_current_weather Sample.fair_weather "London"
                      Sample.London_cached))));
     WroteHistoricalCsv [];
     Logged InfoExported].
Proof. vm_compute. reflexivity. Qed.

(** * Further properties of the code *)

(** ** Resolution and the cache *)

Section ResolutionEffects.

Variable E : env.

(** Everything a resolution can do to the database and to the list of
    events, by cases on its result. *)
Lemma get_city_coordinates_effect (city : string) (w : world) :
  let w' := snd (get_city_coordinates E city w) in
  (match fst (get_city_coordinates E city w) with
   | Raise _ => False
   | Return None => db w' = db w
   | Return (Some c) =>
       current_weather (db w') = current_weather (db w) /\
       historical_weather (db w') = historical_weather (db w) /\
       city_coordinates (db w') !! c_city c =
         Some {| cc_country := c_country c; cc_latitude := c_lat c;
                 cc_longitude := c_lon c |} /\
       forall k, k <> c_city c ->
         city_coordinates (db w') !! k = city_coordinates (db w) !! k
   end) /\
  cache_kept w w' /\
  count_events is_sleep w' = count_events is_sleep w /\
  count_events is_geocoding_request w' =
    (count_events is_geocoding_request w +
     match city_coordinates (db w) !! city with Some _ => 0 | None => 1 end)%nat.
Proof.
  unfold cache_kept, get_city_coordinates, select_city_coordinates,
    requests_get_geocoding, execute_insert, insert_into_city_coordinates.
  run_monad.
  destruct (city_coordinates (db w) !! city) as [row|] eqn:Hlook; simpl.
  { repeat split; auto; try (destruct row; exact Hlook); unfold count_events; lia. }
  destruct (geocoding_api E (steps w) city) as [e|[|m rest]]; simpl;
    try (repeat split; auto; unfold count_events; simpl; lia).
  destruct (insert_fault E (S (steps w))) as [e|]; simpl;
    try (repeat split; auto; unfold count_events; simpl; lia).
  destruct (city_coordinates (db w) !! gm_name m) as [other|] eqn:Hkey; simpl;
    try (repeat split; auto; unfold count_events; simpl; lia).
  repeat split; auto.
  - apply lookup_insert_eq.
  - intros k Hk. apply lookup_insert_ne. congruence.
  - intros k r Hr. rewrite lookup_insert_ne; [exact Hr | congruence].
  - unfold count_events. simpl. lia.
Qed.



End ResolutionEffects.

(** ** The cycle: what it keeps and what it costs *)

Section CycleEffects.

Variable E : env.
Variable delay : float.

(** The effect of [collect_current_weather] on everything but the
    [current_weather] table. *)
Lemma collect_current_weather_effect (city : string) (w : world) :
  let w' := snd (collect_current_weather E city w) in
  cache_kept w w' /\
  historical_weather (db w') = historical_weather (db w) /\
  count_events is_sleep w' = count_events is_sleep w /\
  count_events is_geocoding_request w' =
    (count_events is_geocoding_request w +
     match city_coordinates (db w) !! city with Some _ => 0 | None => 1 end)%nat /\
  (count_events is_weather_request w' <= S (count_events is_weather_request w))%nat.
Proof.
  pose proof (collect_current_weather_outcome E city w) as Hout.
  destruct (get_city_coordinates_effect E city w) as (_ & Hkept & Hsleep & Hgeo).
  destruct (get_city_coordinates_frame E city w) as (o & Hres & _ & Hhist & Hreq).
  destruct (get_city_coordinates E city w) as [r w1].
  simpl in Hkept, Hsleep, Hgeo, Hres, Hhist, Hreq. subst r.
  unfold count_events in *.
  destruct o as [c|].
  - destruct (fetch_outcome E c w1) as [e|row].
    + destruct Hout as [n ->]. simpl. repeat split; auto. lia.
    + rewrite Hout. simpl. repeat split; auto. lia.
  - rewrite Hout. simpl. repeat split; auto. lia.
Qed.

Lemma cache_kept_trans (w1 w2 w3 : world) :
  cache_kept w1 w2 -> cache_kept w2 w3 -> cache_kept w1 w3.
Proof. unfold cache_kept. auto. Qed.

(** The loop of the cycle, city by city. *)
Lemma collect_cities_effect (cs : list string) :
  forall (success_count : nat) (w : world),
  let w' := snd (collect_cities E delay cs success_count w) in
  cache_kept w w' /\
  historical_weather (db w') = historical_weather (db w) /\
  count_events is_sleep w' = (count_events is_sleep w + length cs)%nat /\
  (count_events is_geocoding_request w' <=
     count_events is_geocoding_request w + length cs)%nat /\
  (count_events is_weather_request w' <=
     count_events is_weather_request w + length cs)%nat /\
  ((forall c, In c cs -> is_Some (city_coordinates (db w) !! c)) ->
   count_events is_geocoding_request w' = count_events is_geocoding_request w).
Proof.
  induction cs as [|city cs IH]; intros n w; simpl.
  - unfold ret, cache_kept. simpl. repeat split; auto; lia.
  - unfold bind. rewrite collect_city_sleeps.
    destruct (collect_current_weather_effect city w)
      as (Hkept1 & Hhist1 & Hsleep1 & Hgeo1 & Hreq1).
    set (w1 := {| db := db (snd (collect_current_weather E city w));
                  steps := steps (snd (collect_current_weather E city w));
                  events := Slept delay :: events (snd (collect_current_weather E city w)) |}).
    destruct (IH (if resolvable_and_fetchable E city w then S n else n) w1)
      as (Hkept2 & Hhist2 & Hsleep2 & Hgeo2 & Hreq2 & Hcached2).
    assert (Hkept : cache_kept w w1) by exact Hkept1.
    repeat split.
    + eapply cache_kept_trans; eassumption.
    + rewrite Hhist2. exact Hhist1.
    + rewrite Hsleep2. unfold w1, count_events in *. simpl. lia.
    + unfold w1, count_events in *. simpl in *.
      destruct (city_coordinates (db w) !! city); lia.
    + unfold w1, count_events in *. simpl in *. lia.
    + intros Hall. rewrite Hcached2.
      * unfold w1, count_events in *. simpl.
        destruct (Hall city (or_introl eq_refl)) as [row Hrow].
        rewrite Hrow in Hgeo1. lia.
      * intros c Hc. destruct (Hall c (or_intror Hc)) as [row Hrow].
        exists row. apply Hkept. exact Hrow.
Qed.

(** The opening line, the closing line and the export of a cycle add no
    request and no sleep, and do not write to the database. *)
Lemma collect_all_current_around_loop (cities : list string) (w : world)
  (p : event -> bool) :
  (forall l, p (Logged l) = false) ->
  (forall rows, p (WroteCurrentCsv rows) = false) ->
  (forall rows, p (WroteHistoricalCsv rows) = false) ->
  let loop := snd (collect_cities E delay cities 0%nat (cycle_started w)) in
  let w' := snd (collect_all_current E cities delay w) in
  db w' = db loop /\
  count_events p w' = count_events p loop /\
  count_events p (cycle_started w) = count_events p w.
Proof.
  intros Hlog Hcur Hhis loop w'. subst loop w'.
  unfold collect_all_current, export_to_csv. run_monad. fold (cycle_started w).
  destruct (collect_cities_frame E delay cities 0%nat (cycle_started w)) as (Hres & _).
  destruct (collect_cities E delay cities 0%nat (cycle_started w)) as [r w1].
  simpl in Hres. subst r. simpl.
  unfold count_events.
  destruct (0 <? collectable_count E delay cities (cycle_started w))%nat; simpl;
    rewrite ?Hlog, ?Hcur, ?Hhis; repeat split; reflexivity.
Qed.

(** X4: a cycle keeps what the database holds: every cached row stays as it
    is, [historical_weather] is not written, and the rows [current_weather]
    had before stay in place, in order, before the new ones. *)
Theorem collect_all_current_keeps_data (cities : list string) (w : world) :
  let w' := snd (collect_all_current E cities delay w) in
  cache_kept w w' /\
  historical_weather (db w') = historical_weather (db w) /\
  exists new, current_weather (db w') = current_weather (db w) ++ new.
Proof.
  intros w'. subst w'.
  destruct (collect_all_current_around_loop cities w is_sleep) as (Hdb & _); auto.
  destruct (collect_cities_effect cities 0%nat (cycle_started w)) as (Hkept & Hhist & _).
  destruct (collect_cities_frame E delay cities 0%nat (cycle_started w))
    as (_ & (new & Hnew & _) & _).
  unfold cache_kept in *. rewrite Hdb. repeat split.
  - exact Hkept.
  - exact Hhist.
  - exists new. exact Hnew.
Qed.

(** X6: when every configured city has a row in the cache under its
    configured name, a cycle asks the geocoder nothing. *)
Theorem collect_all_current_cached_cities (cities : list string) (w : world) :
  (forall c, In c cities -> is_Some (city_coordinates (db w) !! c)) ->
  count_events is_geocoding_request (snd (collect_all_current E cities delay w)) =
    count_events is_geocoding_request w.
Proof.
  intros Hall.
  destruct (collect_all_current_around_loop cities w is_geocoding_request)
    as (_ & -> & Hg); auto.
  destruct (collect_cities_effect cities 0%nat (cycle_started w))
    as (_ & _ & _ & _ & _ & Hcached).
  rewrite Hcached; [exact Hg | exact Hall].
Qed.

End CycleEffects.

(** ** Export and summary *)

Section ExportSummary.

Variable E : env.
Variable delay : float.

(** X7: [export_to_csv] returns the files it has written, in the order
    current, historical: one file for "current" and for "historical", both
    for "both", and none at all for any other value of [table], which is not
    rejected.  The database is only read. *)
Theorem export_to_csv_tables (table : string) (w : world) :
  let w' := snd (export_to_csv table w) in
  db w' = db w /\
  fst (export_to_csv table w) =
    Return (if String.eqb table "both"
            then ["data/current_weather.csv"; "data/historical_weather.csv"]
            else if String.eqb table "current" then ["data/current_weather.csv"]
            else if String.eqb table "historical" then ["data/historical_weather.csv"]
            else []) /\
  events w' =
    Logged InfoExported ::
    (if String.eqb table "both"
     then [WroteHistoricalCsv (historical_weather (db w));
           WroteCurrentCsv (current_weather (db w))]
     else if String.eqb table "current" then [WroteCurrentCsv (current_weather (db w))]
     else if String.eqb table "historical"
          then [WroteHistoricalCsv (historical_weather (db w))]
     else []) ++ events w.
Proof.
  unfold export_to_csv. run_monad.
  destruct (String.eqb table "both") eqn:Hboth.
  - apply String.eqb_eq in Hboth. subst table. simpl. repeat split.
  - destruct (String.eqb table "current") eqn:Hcur.
    + apply String.eqb_eq in Hcur. subst table. simpl. repeat split.
    + destruct (String.eqb table "historical") eqn:Hhis; simpl; repeat split.
Qed.

(** X8: the export at the end of a cycle in which at least one city
    succeeded writes both tables exactly as the cycle has left them, the rows
    just collected included; a cycle without a success writes no file. *)
Theorem collect_all_current_export_snapshot (cities : list string) (w : world) :
  let K := collectable_count E delay cities (cycle_started w) in
  let w' := snd (collect_all_current E cities delay w) in
  let loop := snd (collect_cities E delay cities 0%nat (cycle_started w)) in
  events w' =
    (if (0 <? K)%nat
     then [Logged InfoExported;
           WroteHistoricalCsv (historical_weather (db w'));
           WroteCurrentCsv (current_weather (db w'))]
     else []) ++ Logged (InfoCompleted K (length cities)) :: events loop.
Proof.
  intros K w' loop. subst w' loop. unfold collect_all_current, export_to_csv.
  run_monad. fold (cycle_started w).
  destruct (collect_cities_frame E delay cities 0%nat (cycle_started w)) as (Hres & _).
  destruct (collect_cities E delay cities 0%nat (cycle_started w)) as [r w1].
  simpl in Hres. subst r. simpl. fold K.
  destruct (0 <? K)%nat; reflexivity.
Qed.

(** X9: [get_data_summary] only reads: the world is as before; the total is
    the sum of the two counts; the cities are those of the rows of
    [current_weather], each listed once. *)
Theorem get_data_summary_counts (w : world) :
  exists summary,
    get_data_summary w = (Return summary, w) /\
    current_records summary = length (current_weather (db w)) /\
    historical_records summary = length (historical_weather (db w)) /\
    total_records summary = (current_records summary + historical_records summary)%nat /\
    NoDup (summary_cities summary) /\
    forall city, city ∈ summary_cities summary <->
                 exists row, row ∈ current_weather (db w) /\ cw_city row = city.
Proof.
  unfold get_data_summary. run_monad. eexists. split; [reflexivity|]. simpl.
  repeat split.
  - apply NoDup_remove_dups.
  - rewrite elem_of_remove_dups, list_elem_of_fmap.
    intros (row & Hcity & Hrow). exists row. auto.
  - rewrite elem_of_remove_dups, list_elem_of_fmap.
    intros (row & Hrow & Hcity). exists row. auto.
Qed.

(** X10: the number [run_once] prints is the total before the cycle plus the
    number of cities that succeeded: a cycle adds nothing else to the two
    tables. *)
Theorem run_once_total (cities : list string) (w : world) :
  fst (run_once E cities delay w) =
    Return (length (current_weather (db w)) + length (historical_weather (db w)) +
            collectable_count E delay cities (cycle_started w))%nat.
Proof.
  unfold run_once, bind.
  destruct (collect_all_current_exports E delay cities w) as (Hres & Hdb & _).
  destruct (collect_cities_effect E delay cities 0%nat (cycle_started w))
    as (_ & Hhist & _).
  destruct (collect_cities_frame E delay cities 0%nat (cycle_started w))
    as (_ & (new & Hnew & Hlen) & _).
  destruct (collect_all_current E cities delay w) as [r w1].
  simpl in Hres, Hdb. subst r.
  unfold get_data_summary. run_monad. rewrite Hdb, Hhist, Hnew.
  rewrite length_app, Hlen. simpl. f_equal. lia.
Qed.

End ExportSummary.

(** ** What an answer of the weather endpoint must carry *)

Ltac key_missing :=
  split;
  [ intros [? ?]; discriminate
  | unfold is_Some; intros Hkeys; decompose [and ex] Hkeys; congruence ].


Section CurrentRow.

Variable E : env.

(** X13: the row a successful [collect_current_weather] adds is named after
    the resolved coordinates, not after the string asked for: city, country,
    latitude and longitude are those of the coordinates; wind speed, wind
    direction and visibility are 0 when the answer lacks them. *)
Theorem collect_current_weather_row (city : string) (w w1 : world) (c : coords) :
  get_city_coordinates E city w = (Return (Some c), w1) ->
  fst (collect_current_weather E city w) = Return true ->
  exists data row,
    weather_api E (steps w1) (c_lat c) (c_lon c) = Return data /\
    current_weather (db (snd (collect_current_weather E city w))) =
      current_weather (db w) ++ [row] /\
    cw_city row = c_city c /\ cw_country row = c_country c /\
    cw_latitude row = c_lat c /\ cw_longitude row = c_lon c /\
    Some (cw_timestamp row) = fromtimestamp <$> dt data /\
    cw_wind_speed row = get_default (wind_speed data) 0%float /\
    cw_wind_direction row = get_default (wind_deg data) 0 /\
    cw_visibility row = get_default (visibility data) 0.
Proof.
  intros Hget Htrue.
  pose proof (collect_current_weather_outcome E city w) as Hout.
  destruct (get_city_coordinates_frame E city w) as (_ & _ & Hcur & _).
  rewrite Hget in Hout, Hcur. simpl in Hcur.
  destruct (fetch_outcome E c w1) as [e|row] eqn:Hfetch.
  { destruct Hout as [n Hn]. rewrite Hn in Htrue. discriminate. }
  rewrite Hout. simpl. unfold fetch_outcome, rbind in Hfetch.
  destruct (weather_api E (steps w1) (c_lat c) (c_lon c)) as [e|data]; try discriminate.
  destruct (current_weather_data c data) as [e|row'] eqn:Hrow; try discriminate.
  destruct (insert_fault E (S (steps w1))); try discriminate.
  injection Hfetch as <-.
  exists data, row'. rewrite Hcur. split; [reflexivity|]. split; [reflexivity|].
  unfold current_weather_data, rbind, subscript in Hrow.
  destruct (dt data); try discriminate.
  destruct (main_temp data); try discriminate.
  destruct (main_feels_like data); try discriminate.
  destruct (main_humidity data); try discriminate.
  destruct (main_pressure data); try discriminate.
  destruct (clouds_all data); try discriminate.
  destruct (weather0_main data); try discriminate.
  destruct (weather0_description data); try discriminate.
  destruct (sys_sunrise data); try discriminate.
  destruct (sys_sunset data); try discriminate.
  injection Hrow as <-. simpl. repeat split.
Qed.


End CurrentRow.

(** ** Historical collection: rows, delays, frame *)

(** The record derived for a day carries the coordinates it was fetched for
    and the date it was derived for. *)
Lemma historical_data_identity (c : coords) (date : datetime) (i : Z)
  (data : weather_json) (row : historical_row) :
  historical_data c date i data = Return row ->
  hw_city row = c_city c /\ hw_latitude row = c_lat c /\
  hw_longitude row = c_lon c /\ hw_timestamp row = date.
Proof.
  unfold historical_data, rbind, subscript. intros H.
  destruct (main_temp data); try discriminate.
  destruct (float_of_int i); try discriminate.
  destruct (main_feels_like data); try discriminate.
  destruct (main_humidity data); try discriminate.
  destruct (main_pressure data); try discriminate.
  destruct (float_of_int (i mod 5)); try discriminate.
  destruct (clouds_all data); try discriminate.
  destruct (weather0_main data); try discriminate.
  destruct (weather0_description data); try discriminate.
  injection H as <-. repeat split.
Qed.

Section HistoricalEffects.

Variable E : env.

Lemma collect_historical_day_effect (city : string) (c : coords) (i : Z) (w : world) :
  let w' := snd (collect_historical_day E city c i w) in
  exists new,
    historical_weather (db w') = historical_weather (db w) ++ new /\
    (length new <= 1)%nat /\
    Forall (row_of c) new /\
    count_events is_sleep w' = (count_events is_sleep w + length new)%nat /\
    count_events is_export w' = count_events is_export w /\
    count_events is_geocoding_request w' = count_events is_geocoding_request w.
Proof.
  pose proof (collect_historical_day_outcome E city c i w) as Hday.
  destruct (day_outcome E c i w) as [e|row] eqn:Hout.
  - destruct Hday as [n ->]. simpl. exists []. rewrite app_nil_r.
    unfold count_events. simpl. repeat split; auto; lia.
  - rewrite Hday. simpl. exists [row]. unfold count_events. simpl.
    repeat split; auto; try lia.
    constructor; [|constructor].
    unfold day_outcome, rbind in Hout.
    destruct (weather_api E (S (steps w)) (c_lat c) (c_lon c)); try discriminate.
    destruct (historical_data c (minus_days (clock E (steps w)) (i + 1)) i a)
      as [e|row'] eqn:Hrow; try discriminate.
    destruct (insert_fault E (S (S (steps w)))); try discriminate.
    injection Hout as <-.
    destruct (historical_data_identity _ _ _ _ _ Hrow) as (H1 & H2 & H3 & _).
    repeat split; assumption.
Qed.

Lemma collect_historical_days_effect (city : string) (c : coords) (remaining : nat) :
  forall (i : Z) (success_count : nat) (w : world),
  let w' := snd (collect_historical_days E city c i remaining success_count w) in
  exists new,
    historical_weather (db w') = historical_weather (db w) ++ new /\
    (length new <= remaining)%nat /\
    Forall (row_of c) new /\
    count_events is_sleep w' = (count_events is_sleep w + length new)%nat /\
    count_events is_export w' = count_events is_export w /\
    count_events is_geocoding_request w' = count_events is_geocoding_request w.
Proof.
  induction remaining as [|n IH]; intros i success_count w; simpl.
  - exists []. rewrite app_nil_r. repeat split; auto; lia.
  - destruct (collect_historical_day_effect city c i w)
      as (new1 & Hnew1 & Hlen1 & Hrows1 & Hsleep1 & Hexp1 & Hgeo1).
    destruct (collect_historical_day_frame E city c i w) as (Hres & _).
    unfold bind.
    destruct (collect_historical_day E city c i w) as [r w1].
    simpl in Hnew1, Hsleep1, Hexp1, Hgeo1, Hres. subst r.
    destruct (IH (i + 1) (if day_succeeds E c i w then S success_count else success_count) w1)
      as (new2 & Hnew2 & Hlen2 & Hrows2 & Hsleep2 & Hexp2 & Hgeo2).
    exists (new1 ++ new2). rewrite Hnew2, Hnew1, app_assoc, length_app.
    repeat split; try lia.
    apply Forall_app. split; assumption.
Qed.

(** X15: the records one historical collection adds all carry the canonical
    name and the coordinates the city was resolved to, and there are at most
    [days_back] of them. *)
Theorem collect_historical_weather_rows (city : string) (days_back : Z)
  (w w0 : world) (c : coords) :
  get_city_coordinates E city w = (Return (Some c), w0) ->
  exists new,
    historical_weather (db (snd (collect_historical_weather E city days_back w))) =
      historical_weather (db w) ++ new /\
    (length new <= Z.to_nat days_back)%nat /\
    Forall (row_of c) new.
Proof.
  intros Hget.
  destruct (get_city_coordinates_frame E city w) as (_ & _ & _ & Hhist & _).
  unfold collect_historical_weather, bind. rewrite Hget in *. simpl in Hhist.
  destruct (collect_historical_days_effect city c (Z.to_nat days_back) 0 0%nat w0)
    as (new & Hnew & Hlen & Hrows & _).
  destruct (collect_historical_days_frame E city c (Z.to_nat days_back) 0 0%nat w0)
    as (Hres & _).
  destruct (collect_historical_days E city c 0 (Z.to_nat days_back) 0%nat w0) as [r w1].
  simpl in Hnew, Hres. subst r. simpl.
  exists new. rewrite Hnew, Hhist. repeat split; assumption.
Qed.

(** X16: a historical collection sleeps once for every record it adds and
    not otherwise: a day that fails is followed by the next request without a
    delay. *)
Theorem collect_historical_weather_sleeps (city : string) (days_back : Z) (w : world) :
  let w' := snd (collect_historical_weather E city days_back w) in
  exists new,
    historical_weather (db w') = historical_weather (db w) ++ new /\
    count_events is_sleep w' = (count_events is_sleep w + length new)%nat.
Proof.
  intros w'. subst w'.
  destruct (get_city_coordinates_frame E city w) as (o & Hres & _ & Hhist & _).
  destruct (get_city_coordinates_effect E city w) as (_ & _ & Hsleep & _).
  unfold collect_historical_weather, bind.
  destruct (get_city_coordinates E city w) as [r w0].
  simpl in Hres, Hhist, Hsleep. subst r.
  destruct o as [c|].
  - destruct (collect_historical_days_effect city c (Z.to_nat days_back) 0 0%nat w0)
      as (new & Hnew & _ & _ & Hsl & _).
    destruct (collect_historical_days_frame E city c (Z.to_nat days_back) 0 0%nat w0)
      as (Hloop & _).
    destruct (collect_historical_days E city c 0 (Z.to_nat days_back) 0%nat w0) as [r w1].
    simpl in Hnew, Hsl, Hloop. subst r. simpl.
    exists new. rewrite Hnew, Hhist. split; [reflexivity|].
    unfold count_events in *. simpl. lia.
  - simpl. exists []. rewrite app_nil_r. split; [exact Hhist|].
    unfold count_events in *. simpl. lia.
Qed.

(** X18: when the city cannot be resolved, a historical collection returns
    False whatever [days_back] is, issues no weather request and leaves the
    database as it was. *)
Theorem collect_historical_weather_unresolved (city : string) (days_back : Z)
  (w w0 : world) :
  get_city_coordinates E city w = (Return None, w0) ->
  let w' := snd (collect_historical_weather E city days_back w) in
  fst (collect_historical_weather E city days_back w) = Return false /\
  db w' = db w /\
  count_events is_weather_request w' = count_events is_weather_request w /\
  events w' = Logged (ErrorNoCoordinates city) :: events w0.
Proof.
  intros Hget w'. subst w'.
  destruct (get_city_coordinates_effect E city w) as (Hdb & _).
  destruct (get_city_coordinates_frame E city w) as (_ & _ & _ & _ & Hreq).
  unfold collect_historical_weather, bind. rewrite Hget in *. simpl in *.
  repeat split; assumption.
Qed.

End HistoricalEffects.

(** ** The configured cities *)

Lemma split_on_not_nil (sep : Ascii.ascii) (s : string) : split_on sep s <> [].
Proof.
  destruct s as [|c s]; simpl; [discriminate|].
  destruct (Ascii.eqb c sep); [discriminate|].
  destruct (split_on sep s); discriminate.
Qed.

Lemma split_on_concat (sep : Ascii.ascii) (s : string) :
  String.concat (String sep EmptyString) (split_on sep s) = s.
Proof.
  induction s as [|c s IH]; simpl; [reflexivity|].
  pose proof (split_on_not_nil sep s) as Hne.
  destruct (Ascii.eqb c sep) eqn:Hc.
  - apply Ascii.eqb_eq in Hc. subst c.
    destruct (split_on sep s) as [|piece pieces]; [contradiction|].
    simpl in *. rewrite IH. reflexivity.
  - destruct (split_on sep s) as [|piece pieces]; [contradiction|].
    destruct pieces; simpl in *; rewrite <- IH; reflexivity.
Qed.

Lemma split_on_pieces (sep : Ascii.ascii) (s : string) :
  length (split_on sep s) = S (occurrences sep s) /\
  Forall (fun piece => occurrences sep piece = 0%nat) (split_on sep s).
Proof.
  induction s as [|c s [IHlen IHfree]]; simpl.
  - split; [reflexivity | repeat constructor].
  - pose proof (split_on_not_nil sep s) as Hne.
    destruct (Ascii.eqb c sep) eqn:Hc; simpl.
    + split; [rewrite IHlen; reflexivity | constructor; [reflexivity | exact IHfree]].
    + destruct (split_on sep s) as [|piece pieces]; [contradiction|].
      simpl in *. split; [exact IHlen|].
      inversion IHfree; subst. constructor; [|assumption].
      simpl. rewrite Hc. assumption.
Qed.

(** X19: the configured cities are the pieces of the CITIES value between
    its commas and nothing else: nothing is trimmed or dropped, so joining
    the cities with commas gives the value back. *)
Theorem Config_CITIES_lossless (env_CITIES : option string) :
  String.concat "," (Config_CITIES env_CITIES) =
    get_default env_CITIES "New York,London,Tokyo,Paris,Sydney".
Proof. unfold Config_CITIES. apply split_on_concat. Qed.

(** X20: there is one city more than the CITIES value has commas, so at
    least one, also for an empty value, and no city contains a comma. *)
Theorem Config_CITIES_count (env_CITIES : option string) :
  let value := get_default env_CITIES "New York,London,Tokyo,Paris,Sydney" in
  length (Config_CITIES env_CITIES) = S (occurrences "," value) /\
  Forall (fun city => occurrences "," city = 0%nat) (Config_CITIES env_CITIES).
Proof. unfold Config_CITIES. apply split_on_pieces. Qed.

Lemma collectable_count_le (E : env) (delay : float) (cs : list string) :
  forall w, (collectable_count E delay cs w <= length cs)%nat.
Proof.
  induction cs as [|city cs IH]; intros w; simpl; [lia|].
  specialize (IH (snd (collect_city E delay city 0%nat w))).
  destruct (resolvable_and_fetchable E city w); lia.
Qed.

(** X21: a cycle of the scheduler over the configured cities attempts one
    city more than the CITIES value has commas, whatever the pieces are, and
    reports at most that many successes. *)
Theorem collect_all_current_attempts_configured (E : env) (delay : float)
  (env_CITIES : option string) (w : world) :
  let value := get_default env_CITIES "New York,London,Tokyo,Paris,Sydney" in
  exists K,
    fst (collect_all_current E (Config_CITIES env_CITIES) delay w) =
      Return {| succeeded := K; attempted := S (occurrences "," value) |} /\
    (K <= S (occurrences "," value))%nat.
Proof.
  intros value.
  destruct (collect_all_current_exports E delay (Config_CITIES env_CITIES) w)
    as (Hres & _).
  assert (Hlen : length (Config_CITIES env_CITIES) = S (occurrences "," value))
    by (unfold Config_CITIES; apply split_on_pieces).
  eexists. rewrite Hres, Hlen. split; [reflexivity|].
  rewrite <- Hlen. apply collectable_count_le.
Qed.

(** ** Witnesses for the further properties *)


(** Witness for X6: a cycle over London with London cached. *)
Lemma collect_all_current_cached_cities_witness :
  count_events is_geocoding_request
    (snd (collect_all_current Sample.fair_weather ["London"] 1%float Sample.London_cached)) =
  count_events is_geocoding_request Sample.London_cached.
Proof.
  apply (collect_all_current_cached_cities Sample.fair_weather 1%float ["London"]
           Sample.London_cached).
  intros c [<-|[]]. eexists. vm_compute. reflexivity.
Defined.

(** Witness for X13: asked for "london", the row is stored under London. *)
Lemma collect_current_weather_row_witness :
  exists data row,
    weather_api Sample.fair_weather
      (steps (snd (get_city_coordinates Sample.fair_weather "london" Sample.fresh)))
      (c_lat Sample.London_coords) (c_lon Sample.London_coords) = Return data /\
    current_weather
      (db (snd (collect_current_weather Sample.fair_weather "london" Sample.fresh))) =
      current_weather (db Sample.fresh) ++ [row] /\
    cw_city row = "London" /\ cw_country row = "GB" /\
    cw_latitude row = 51.5%float /\ cw_longitude row = (-0.125)%float /\
    Some (cw_timestamp row) = fromtimestamp <$> dt data /\
    cw_wind_speed row = get_default (wind_speed data) 0%float /\
    cw_wind_direction row = get_default (wind_deg data) 0 /\
    cw_visibility row = get_default (visibility data) 0.
Proof.
  apply (collect_current_weather_row Sample.fair_weather "london" Sample.fresh
           (snd (get_city_coordinates Sample.fair_weather "london" Sample.fresh))
           Sample.London_coords).
  - vm_compute. reflexivity.
  - vm_compute. reflexivity.
Defined.


(** Witness for X15: five days back for London with the endpoint down on
    day 3. *)
Lemma collect_historical_weather_rows_witness :
  exists new,
    historical_weather
      (db (snd (collect_historical_weather Sample.outage_on_day_3 "London" 5 Sample.fresh))) =
      historical_weather (db Sample.fresh) ++ new /\
    (length new <= Z.to_nat 5)%nat /\
    Forall (row_of Sample.London_coords) new.
Proof.
  apply (collect_historical_weather_rows Sample.outage_on_day_3 "London" 5 Sample.fresh
           Sample.London_cached Sample.London_coords).
  vm_compute. reflexivity.
Defined.

(** Witness for X18: thirty days back with the geocoder unreachable. *)
Lemma collect_historical_weather_unresolved_witness :
  let run := collect_historical_weather Sample2.offline "London" 30 Sample.fresh in
  fst run = Return false /\
  db (snd run) = db Sample.fresh /\
  count_events is_weather_request (snd run) = count_events is_weather_request Sample.fresh /\
  events (snd run) =
    Logged (ErrorNoCoordinates "London")
    :: events (snd (get_city_coordinates Sample2.offline "London" Sample.fresh)).
Proof.
  apply (collect_historical_weather_unresolved Sample2.offline "London" 30 Sample.fresh
           (snd (get_city_coordinates Sample2.offline "London" Sample.fresh))).
  vm_compute. reflexivity.
Defined.

(** The answer without [dt] is refused by the current collection and taken
    by the historical one. *)
Example undated_answer_current_and_historical :
  current_weather_data Sample.London_coords Sample2.undated = Raise (KeyError "dt") /\
  exists row,
    historical_data Sample.London_coords 1699913600000000 0 Sample2.undated = Return row /\
    hw_wind_speed row = 0%float /\ hw_wind_direction row = 0.
Proof. split; [reflexivity|]. eexists. split; [reflexivity|]. split; reflexivity. Qed.

(** An empty CITIES value configures one city, the empty string; a value
    with spaces after its commas keeps the spaces. *)
Example Config_CITIES_edge_values :
  Config_CITIES (Some "") = [""] /\
  Config_CITIES (Some "London, Paris,") = ["London"; " Paris"; ""] /\
  Config_CITIES None = ["New York"; "London"; "Tokyo"; "Paris"; "Sydney"].
Proof. repeat split; reflexivity. Qed.

(** * Properties of the full model *)

Ltac full_monad :=
  unfold Full.bind, Full.try_except, Full.ret, Full.raise, Full.lift, Full.emit,
    Full.tick, Full.get_db, Full.put_db, Full.logger_error, Full.logger_info; simpl.

Ltac split_ands := repeat match goal with |- _ /\ _ => split end.

(** ** Resolution *)

Section FullResolution.

Variable E : Full.env.

(** Everything a resolution can do, by cases on its result. *)
Lemma full_get_city_coordinates_effect (city : string) (w : Full.world) :
  let w' := snd (Full.get_city_coordinates E city w) in
  (match fst (Full.get_city_coordinates E city w) with
   | Full.Raise e =>
       Full.database_fault E (Full.steps w) = Some e /\ Full.events w' = Full.events w
   | Full.Return None => True
   | Full.Return (Some c) =>
       Full.city_coordinates (Full.db w') !! c_city c =
         Some {| cc_country := c_country c; cc_latitude := c_lat c;
                 cc_longitude := c_lon c |} /\
       forall k, k <> c_city c ->
         Full.city_coordinates (Full.db w') !! k = Full.city_coordinates (Full.db w) !! k
   end) /\
  ((forall o, fst (Full.get_city_coordinates E city w) <> Full.Return (Some o)) ->
   Full.db w' = Full.db w) /\
  Full.cache_kept w w' /\
  Full.current_weather (Full.db w') = Full.current_weather (Full.db w) /\
  Full.historical_weather (Full.db w') = Full.historical_weather (Full.db w) /\
  Full.count_events Full.is_sleep w' = Full.count_events Full.is_sleep w /\
  Full.count_events Full.is_weather_request w' =
    Full.count_events Full.is_weather_request w /\
  (Full.count_events Full.is_geocoding_request w' <=
     S (Full.count_events Full.is_geocoding_request w))%nat.
Proof.
  unfold Full.cache_kept, Full.count_events, Full.get_city_coordinates,
    Full.select_city_coordinates, Full.requests_get_geocoding, Full.execute_insert,
    Full.insert_into_city_coordinates.
  full_monad.
  destruct (Full.database_fault E (Full.steps w)) as [e|]; simpl.
  { repeat split; auto. }
  destruct (Full.city_coordinates (Full.db w) !! city) as [row|] eqn:Hlook; simpl.
  { repeat split; auto. destruct row; exact Hlook. }
  destruct (Full.geocoding_api E (S (Full.steps w)) city) as [e|[|m rest]]; simpl;
    try solve [repeat split; auto].
  destruct (Full.insert_fault E (S (S (Full.steps w)))) as [e|]; simpl;
    try solve [repeat split; auto].
  destruct (Full.city_coordinates (Full.db w) !! gm_name m) as [other|] eqn:Hkey; simpl;
    try solve [repeat split; auto].
  repeat split; auto.
  - apply lookup_insert_eq.
  - intros k Hk. apply lookup_insert_ne. congruence.
  - intros Ho. exfalso. eapply Ho. reflexivity.
  - intros k r Hr. rewrite lookup_insert_ne; [exact Hr | congruence].
Qed.

End FullResolution.

(** ** Current weather and the loop of the cycle *)

Section FullCycle.

Variable E : Full.env.
Variable delay : float.

(** [collect_current_weather] raises only what the lookup of the resolver
    raises; it adds at most one row, one geocoding request and one weather
    request, and it never sleeps. *)
Lemma full_collect_current_weather_effect (city : string) (w : Full.world) :
  let w' := snd (Full.collect_current_weather E city w) in
  (match fst (Full.collect_current_weather E city w) with
   | Full.Raise e =>
       Full.database_fault E (Full.steps w) = Some e /\
       Full.events w' = Full.events w /\ Full.db w' = Full.db w
   | Full.Return _ => True
   end) /\
  Full.cache_kept w w' /\
  Full.historical_weather (Full.db w') = Full.historical_weather (Full.db w) /\
  (exists new,
     Full.current_weather (Full.db w') = Full.current_weather (Full.db w) ++ new /\
     (length new <= 1)%nat) /\
  Full.count_events Full.is_sleep w' = Full.count_events Full.is_sleep w /\
  (Full.count_events Full.is_geocoding_request w' <=
     S (Full.count_events Full.is_geocoding_request w))%nat /\
  (Full.count_events Full.is_weather_request w' <=
     S (Full.count_events Full.is_weather_request w))%nat.
Proof.
  destruct (full_get_city_coordinates_effect E city w)
    as (Hres & Hsame & Hkept & Hcur & Hhist & Hsleep & Hreq & Hgeo).
  destruct (Full.get_city_coordinates E city w) as [[e|[c|]] w1] eqn:Hget;
    simpl in Hres, Hsame, Hkept, Hcur, Hhist, Hsleep, Hreq, Hgeo;
    unfold Full.collect_current_weather, Full.bind; rewrite Hget.
  - simpl. destruct Hres as [Hfault Hev].
    assert (Hdb : Full.db w1 = Full.db w) by (apply Hsame; discriminate).
    split_ands; auto; try lia.
    exists []. rewrite app_nil_r. split; [exact Hcur | simpl; lia].
  - unfold Full.requests_get_weather, Full.store_current_weather, Full.execute_insert,
      Full.insert_into_current_weather, Full.cache_kept, Full.count_events in *.
    full_monad.
    destruct (Full.weather_api E (Full.steps w1) (c_lat c) (c_lon c)) as [e|data]; simpl.
    { split_ands; auto; try lia.
      exists []. rewrite app_nil_r. split; [exact Hcur | simpl; lia]. }
    destruct (Full.current_weather_data E c data) as [e|row]; simpl.
    { split_ands; auto; try lia.
      exists []. rewrite app_nil_r. split; [exact Hcur | simpl; lia]. }
    destruct (Full.insert_fault E (S (Full.steps w1))) as [e|]; simpl.
    { split_ands; auto; try lia.
      exists []. rewrite app_nil_r. split; [exact Hcur | simpl; lia]. }
    match goal with |- context [if ?b then _ else _] => destruct b end; simpl.
    + split_ands; auto; try lia.
      exists [row]. rewrite Hcur. split; [reflexivity | simpl; lia].
    + split_ands; auto; try lia.
      exists []. rewrite app_nil_r. split; [exact Hcur | simpl; lia].
  - unfold Full.cache_kept, Full.count_events in *. full_monad.
    split_ands; auto; try lia.
    exists []. rewrite app_nil_r. split; [exact Hcur | simpl; lia].
Qed.

(** A length [time.sleep] accepts is slept. *)
Lemma full_time_sleep_valid (seconds : float) (w : Full.world) :
  Full.valid_sleep seconds = true ->
  Full.time_sleep E seconds w =
    (Full.Return tt,
     {| Full.db := Full.db w; Full.steps := Full.steps w;
        Full.events := Full.Slept seconds :: Full.events w |}).
Proof.
  unfold Full.valid_sleep, Full.time_sleep. intros H.
  apply andb_prop in H. destruct H as [H Hshort].
  apply andb_prop in H. destruct H as [Hnan Hneg].
  apply negb_true_iff in Hnan. apply negb_true_iff in Hneg.
  rewrite Hnan, Hneg, Hshort. reflexivity.
Qed.

(** [time.sleep] either records the sleep or raises and records nothing. *)
Lemma full_time_sleep_cases (seconds : float) (w : Full.world) :
  Full.time_sleep E seconds w =
    (Full.Return tt,
     {| Full.db := Full.db w; Full.steps := Full.steps w;
        Full.events := Full.Slept seconds :: Full.events w |}) \/
  (Full.valid_sleep seconds = false /\
   exists e, Full.time_sleep E seconds w = (Full.Raise e, w)).
Proof.
  unfold Full.valid_sleep, Full.time_sleep.
  destruct (PrimFloat.is_nan seconds); simpl.
  { right. split; [reflexivity | eexists; reflexivity]. }
  destruct (PrimFloat.ltb seconds 0); simpl.
  { right. split; [reflexivity | eexists; reflexivity]. }
  destruct (PrimFloat.ltb seconds 1000000000); simpl.
  { left. reflexivity. }
  destruct (Full.sleep_fault E seconds); simpl.
  - right. split; [reflexivity | eexists; reflexivity].
  - left. reflexivity.
Qed.

(** The body of the loop, by cases on the call and on the delay. *)
Lemma full_collect_city_outcome (city : string) (success_count : nat) (w : Full.world) :
  let processed := snd (Full.collect_current_weather E city w) in
  match fst (Full.collect_current_weather E city w) with
  | Full.Raise e =>
      Full.collect_city E delay city success_count w =
        (Full.Return success_count,
         {| Full.db := Full.db processed; Full.steps := Full.steps processed;
            Full.events :=
              Full.Logged (Full.ErrorCollectingWeather city e) :: Full.events processed |})
  | Full.Return ok =>
      let counted := if ok then S success_count else success_count in
      let slept :=
        (Full.Return counted,
         {| Full.db := Full.db processed; Full.steps := Full.steps processed;
            Full.events := Full.Slept delay :: Full.events processed |}) in
      (Full.valid_sleep delay = true ->
       Full.collect_city E delay city success_count w = slept) /\
      (Full.collect_city E delay city success_count w = slept \/
       (Full.valid_sleep delay = false /\
        exists e,
          Full.collect_city E delay city success_count w =
            (Full.Return counted,
             {| Full.db := Full.db processed; Full.steps := Full.steps processed;
                Full.events :=
                  Full.Logged (Full.ErrorCollectingWeather city e)
                  :: Full.events processed |})))
  end.
Proof.
  destruct (Full.collect_current_weather E city w) as [[e|ok] w1] eqn:Hcall;
    unfold Full.collect_city, Full.try_except, Full.bind; rewrite Hcall; cbv beta iota.
  - reflexivity.
  - simpl fst. simpl snd. cbv beta iota zeta. split.
    + intros Hvalid. rewrite (full_time_sleep_valid delay w1 Hvalid). reflexivity.
    + destruct (full_time_sleep_cases delay w1) as [Hok | (Hbad & e & He)].
      * left. rewrite Hok. reflexivity.
      * right. split; [exact Hbad|]. exists e. rewrite He. destruct w1. reflexivity.
Qed.

(** The body of the loop never raises; it adds at most one row, one sleep
    and one request of each kind, and counts at most one success. *)
Lemma full_collect_city_effect (city : string) (success_count : nat) (w : Full.world) :
  let w' := snd (Full.collect_city E delay city success_count w) in
  (exists counted,
     fst (Full.collect_city E delay city success_count w) = Full.Return counted /\
     (success_count <= counted <= S success_count)%nat) /\
  Full.cache_kept w w' /\
  Full.historical_weather (Full.db w') = Full.historical_weather (Full.db w) /\
  (exists new,
     Full.current_weather (Full.db w') = Full.current_weather (Full.db w) ++ new /\
     (length new <= 1)%nat) /\
  (Full.count_events Full.is_sleep w' <= S (Full.count_events Full.is_sleep w))%nat /\
  (Full.count_events Full.is_geocoding_request w' <=
     S (Full.count_events Full.is_geocoding_request w))%nat /\
  (Full.count_events Full.is_weather_request w' <=
     S (Full.count_events Full.is_weather_request w))%nat.
Proof.
  pose proof (full_collect_city_outcome city success_count w) as Hout.
  destruct (full_collect_current_weather_effect city w)
    as (_ & Hkept & Hhist & Hcur & Hsleep & Hgeo & Hreq).
  destruct (Full.collect_current_weather E city w) as [[e|ok] w1];
    simpl in Hout, Hkept, Hhist, Hcur, Hsleep, Hgeo, Hreq.
  - rewrite Hout. unfold Full.count_events in *. simpl.
    split; [exists success_count; split; [reflexivity | lia] | split_ands; auto; lia].
  - destruct Hout as (_ & [-> | (_ & e & ->)]); unfold Full.count_events in *; simpl;
      (split; [eexists; split; [reflexivity | destruct ok; lia]
              | split_ands; auto; lia]).
Qed.

(** The loop never raises. *)
Lemma full_collect_cities_effect (cs : list string) :
  forall (success_count : nat) (w : Full.world),
  let w' := snd (Full.collect_cities E delay cs success_count w) in
  (exists counted,
     fst (Full.collect_cities E delay cs success_count w) = Full.Return counted /\
     (success_count <= counted <= success_count + length cs)%nat) /\
  Full.cache_kept w w' /\
  Full.historical_weather (Full.db w') = Full.historical_weather (Full.db w) /\
  (exists new,
     Full.current_weather (Full.db w') = Full.current_weather (Full.db w) ++ new /\
     (length new <= length cs)%nat) /\
  (Full.count_events Full.is_sleep w' <=
     Full.count_events Full.is_sleep w + length cs)%nat /\
  (Full.count_events Full.is_geocoding_request w' <=
     Full.count_events Full.is_geocoding_request w + length cs)%nat /\
  (Full.count_events Full.is_weather_request w' <=
     Full.count_events Full.is_weather_request w + length cs)%nat.
Proof.
  induction cs as [|city cs IH]; intros n w; simpl.
  - unfold Full.ret, Full.cache_kept. simpl. split_ands; auto; try lia.
    + exists n. split; [reflexivity | lia].
    + exists []. rewrite app_nil_r. split; [reflexivity | simpl; lia].
  - destruct (full_collect_city_effect city n w)
      as ((n1 & Hres1 & Hn1) & Hkept1 & Hhist1 & (new1 & Hcur1 & Hlen1)
          & Hsleep1 & Hgeo1 & Hreq1).
    unfold Full.bind.
    destruct (Full.collect_city E delay city n w) as [r w1].
    simpl in Hres1, Hkept1, Hhist1, Hcur1, Hsleep1, Hgeo1, Hreq1. subst r.
    destruct (IH n1 w1)
      as ((n2 & Hres2 & Hn2) & Hkept2 & Hhist2 & (new2 & Hcur2 & Hlen2)
          & Hsleep2 & Hgeo2 & Hreq2).
    split_ands; try lia.
    + exists n2. split; [exact Hres2 | lia].
    + unfold Full.cache_kept in *. auto.
    + rewrite Hhist2. exact Hhist1.
    + exists (new1 ++ new2). rewrite Hcur2, Hcur1, app_assoc, length_app.
      split; [reflexivity | lia].
Qed.

(** A loop over [l1 ++ l2] is the loop over [l1] followed by the loop over
    [l2]. *)
Lemma full_collect_cities_app (l1 l2 : list string) :
  forall (success_count : nat) (w : Full.world),
  exists counted,
    fst (Full.collect_cities E delay l1 success_count w) = Full.Return counted /\
    Full.collect_cities E delay (l1 ++ l2) success_count w =
      Full.collect_cities E delay l2 counted
        (snd (Full.collect_cities E delay l1 success_count w)).
Proof.
  induction l1 as [|city l1 IH]; intros n w; simpl.
  - exists n. split; reflexivity.
  - destruct (full_collect_city_effect city n w) as ((n1 & Hres1 & _) & _).
    unfold Full.bind.
    destruct (Full.collect_city E delay city n w) as [r w1]. simpl in Hres1. subst r.
    apply IH.
Qed.

End FullCycle.

(** ** Synthetic historical records in the full model *)

Lemma full_float_of_int_return (z : Z) (f : float) :
  Full.float_of_int z = Full.Return f -> f = nearest_float z.
Proof.
  unfold Full.float_of_int.
  destruct (PrimFloat.is_infinity (nearest_float z)); congruence.
Qed.

Lemma full_add_float_return (n : Full.number) (x f : float) :
  Full.add_float n x = Full.Return f -> f = (Full.as_float n + x)%float.
Proof.
  destruct n as [z|g]; simpl.
  - destruct (Full.float_of_int z) as [e|fz] eqn:Hz; simpl; [discriminate|].
    apply full_float_of_int_return in Hz. congruence.
  - congruence.
Qed.

Lemma full_add_int_return (n : Full.number) (k : Z) (m : Full.number) :
  Full.add_int n k = Full.Return m -> m = Full.plus n k.
Proof.
  destruct n as [z|g]; simpl.
  - congruence.
  - destruct (Full.float_of_int k) as [e|fk] eqn:Hk; simpl; [discriminate|].
    apply full_float_of_int_return in Hk. congruence.
Qed.

(** The date of day [i], when it exists, is [i + 1] days before now. *)
Lemma full_day_date_return (E : Full.env) (now : datetime) (i : Z) (date : datetime) :
  Full.day_date E now i = Full.Return date ->
  date = now - (i + 1) * microseconds_per_day.
Proof.
  unfold Full.day_date, Full.minus_days.
  destruct (999999999 <? Z.abs (i + 1)); simpl; [discriminate|].
  destruct ((now - (i + 1) * microseconds_per_day <? 0)
            || (Full.max_datetime <? now - (i + 1) * microseconds_per_day));
    simpl; [discriminate|].
  destruct (Full.timestamp_fault E (now - (i + 1) * microseconds_per_day));
    congruence.
Qed.

(** [max(0, min(100, x))] is the clamp of the specification. *)
Lemma full_py_clamp (x : Full.number) :
  Full.py_max (Full.PInt 0) (Full.py_min (Full.PInt 100) x) = Full.clamp x 0 100.
Proof.
  unfold Full.py_max, Full.py_min, Full.clamp.
  destruct (Full.lt x (Full.PInt 100)); reflexivity.
Qed.

(** The dictionary of lines 241 to 255, when it is built, is the synthetic
    record of the specification for the observation the answer carries. *)
Lemma full_historical_data_observed (c : coords) (now : datetime) (i : Z)
  (data : Full.weather_json) (row : Full.historical_row) :
  Full.historical_data c (now - (i + 1) * microseconds_per_day) i data = Full.Return row ->
  exists o : Full.observation,
    Full.observed data = Some o /\ row = Full.synthetic_record c now i o.
Proof.
  unfold Full.historical_data, Full.observed, Full.subscript.
  destruct (Full.main_temp data) as [t|]; simpl; [|discriminate].
  destruct (Full.float_of_int i) as [e|f_i] eqn:Hi; simpl; [discriminate|].
  apply full_float_of_int_return in Hi. subst f_i.
  destruct (Full.add_float t _) as [e|temperature] eqn:Ht; simpl; [discriminate|].
  apply full_add_float_return in Ht.
  destruct (Full.main_feels_like data) as [f|]; simpl; [|discriminate].
  destruct (Full.add_float f _) as [e|feels_like] eqn:Hf; simpl; [discriminate|].
  apply full_add_float_return in Hf.
  destruct (Full.main_humidity data) as [h|]; simpl; [|discriminate].
  destruct (Full.add_int h _) as [e|humidity] eqn:Hh; simpl; [discriminate|].
  apply full_add_int_return in Hh.
  destruct (Full.main_pressure data) as [p|]; simpl; [|discriminate].
  destruct (Full.add_int p _) as [e|pressure] eqn:Hp; simpl; [discriminate|].
  apply full_add_int_return in Hp.
  destruct (Full.add_float (get_default (Full.wind_speed data) (Full.PInt 0)) _)
    as [e|speed] eqn:Hs; simpl; [discriminate|].
  apply full_add_float_return in Hs.
  destruct (Full.add_int (get_default (Full.wind_deg data) (Full.PInt 0)) _)
    as [e|direction] eqn:Hd; simpl; [discriminate|].
  apply full_add_int_return in Hd.
  destruct (Full.clouds_all data) as [a|]; simpl; [|discriminate].
  destruct (Full.add_int a _) as [e|clouds] eqn:Ha; simpl; [discriminate|].
  apply full_add_int_return in Ha.
  destruct (Full.weather0_main data) as [m|]; simpl; [|discriminate].
  destruct (Full.weather0_description data) as [d|]; simpl; [|discriminate].
  intros Hrow. injection Hrow as <-. subst.
  eexists. split; [reflexivity|].
  unfold Full.synthetic_record. simpl.
  rewrite !full_py_clamp, (Z.mul_comm 2 i). reflexivity.
Qed.






Section FullHistorical.

Variable E : Full.env.

(** One day, computed: without a date the day raises, before any request; a
    successful day appends its record and sleeps; a failed day logs the
    exception and leaves the database as it is. *)
Lemma full_collect_historical_day_outcome (city : string) (c : coords) (i : Z)
  (w : Full.world) :
  match Full.day_date E (Full.clock E (Full.steps w)) i with
  | Full.Raise e =>
      Full.collect_historical_day E city c i w =
        (Full.Raise e,
         {| Full.db := Full.db w; Full.steps := S (Full.steps w);
            Full.events := Full.events w |})
  | Full.Return _ =>
      match Full.day_outcome E c i w with
      | Full.Return row =>
          Full.collect_historical_day E city c i w =
            (Full.Return true,
             {| Full.db :=
                  {| Full.current_weather := Full.current_weather (Full.db w);
                     Full.historical_weather :=
                       Full.historical_weather (Full.db w) ++ [row];
                     Full.city_coordinates := Full.city_coordinates (Full.db w) |};
                Full.steps := S (S (S (Full.steps w)));
                Full.events :=
                  Full.Slept 0.1%float
                  :: Full.Requested (WeatherRequest (c_lat c) (c_lon c))
                  :: Full.events w |})
      | Full.Raise e =>
          exists n,
          Full.collect_historical_day E city c i w =
            (Full.Return false,
             {| Full.db := Full.db w; Full.steps := n;
                Full.events :=
                  Full.Logged (Full.ErrorCollectingHistorical city i e)
                  :: Full.Requested (WeatherRequest (c_lat c) (c_lon c))
                  :: Full.events w |})
      end
  end.
Proof.
  unfold Full.day_outcome, Full.collect_historical_day, Full.datetime_now,
    Full.requests_get_weather, Full.store_historical_weather, Full.execute_insert,
    Full.time_sleep.
  full_monad.
  destruct (Full.day_date E (Full.clock E (Full.steps w)) i) as [e|date]; simpl.
  { reflexivity. }
  destruct (Full.weather_api E (S (Full.steps w)) (c_lat c) (c_lon c)) as [e|data]; simpl.
  { eexists. reflexivity. }
  destruct (Full.historical_data c date i data) as [e|row]; simpl.
  { eexists. reflexivity. }
  destruct (Full.insert_fault E (S (S (Full.steps w)))) as [e|]; simpl.
  { eexists. reflexivity. }
  unfold Full.insert_into_historical_weather.
  match goal with |- context [if ?b then _ else _] => destruct b end; simpl.
  - reflexivity.
  - eexists. reflexivity.
Qed.

End FullHistorical.

Section FullHistoricalLoop.

Variable E : Full.env.

(** What one day does to the world, whether it returns or raises. *)
Lemma full_collect_historical_day_effect (city : string) (c : coords) (i : Z)
  (w : Full.world) :
  let run := Full.collect_historical_day E city c i w in
  let w' := snd run in
  Full.current_weather (Full.db w') = Full.current_weather (Full.db w) /\
  Full.city_coordinates (Full.db w') = Full.city_coordinates (Full.db w) /\
  Full.count_events Full.is_geocoding_request w' =
    Full.count_events Full.is_geocoding_request w /\
  exists new : list Full.historical_row,
    Full.historical_weather (Full.db w') = Full.historical_weather (Full.db w) ++ new /\
    Forall (Full.derived E c) new /\
    Full.count_events Full.is_sleep w' =
      (Full.count_events Full.is_sleep w + length new)%nat /\
    match fst run with
    | Full.Raise e =>
        Full.day_date E (Full.clock E (Full.steps w)) i = Full.Raise e /\ new = []
    | Full.Return ok =>
        ok = Full.day_succeeds E c i w /\
        length new = (if ok then 1 else 0)%nat /\
        Full.count_events Full.is_weather_request w' =
          S (Full.count_events Full.is_weather_request w)
    end.
Proof.
  pose proof (full_collect_historical_day_outcome E city c i w) as Hday.
  unfold Full.day_succeeds.
  destruct (Full.day_date E (Full.clock E (Full.steps w)) i) as [e|date] eqn:Hdate.
  - rewrite Hday. unfold Full.count_events. simpl.
    split_ands; try reflexivity.
    exists []. rewrite app_nil_r. split_ands; auto.
  - destruct (Full.day_outcome E c i w) as [e|row] eqn:Hout.
    + destruct Hday as (n & ->). unfold Full.count_events. simpl.
      split_ands; try reflexivity.
      exists []. rewrite app_nil_r. split_ands; auto.
    + rewrite Hday. unfold Full.count_events. simpl.
      split_ands; try reflexivity.
      exists [row]. split_ands; try reflexivity; try (simpl; lia).
      constructor; [|constructor].
      unfold Full.day_outcome in Hout. rewrite Hdate in Hout. simpl in Hout.
      destruct (Full.weather_api E (S (Full.steps w)) (c_lat c) (c_lon c)) as [e|data]
        eqn:Hapi; simpl in Hout; [discriminate|].
      destruct (Full.historical_data c date i data) as [e|row'] eqn:Hrow;
        simpl in Hout; [discriminate|].
      destruct (Full.insert_fault E (S (S (Full.steps w)))); [discriminate|].
      destruct (Full.insert_into_historical_weather row' (Full.db w));
        simpl in Hout; [discriminate|].
      injection Hout as <-. exists (S (Full.steps w)), date, i, data.
      split; assumption.
Qed.

(** What the loop over the days does to the world, whether it returns or
    raises: it raises only the exception of a date that does not exist. *)
Lemma full_collect_historical_days_effect (city : string) (c : coords) (remaining : nat) :
  forall (i : Z) (n : nat) (w : Full.world),
  let run := Full.collect_historical_days E city c i remaining n w in
  let w' := snd run in
  Full.current_weather (Full.db w') = Full.current_weather (Full.db w) /\
  Full.city_coordinates (Full.db w') = Full.city_coordinates (Full.db w) /\
  Full.count_events Full.is_geocoding_request w' =
    Full.count_events Full.is_geocoding_request w /\
  exists new : list Full.historical_row,
    Full.historical_weather (Full.db w') = Full.historical_weather (Full.db w) ++ new /\
    Forall (Full.derived E c) new /\
    (length new <= remaining)%nat /\
    Full.count_events Full.is_sleep w' =
      (Full.count_events Full.is_sleep w + length new)%nat /\
    match fst run with
    | Full.Raise e =>
        exists (t : nat) (j : Z),
          i <= j < i + Z.of_nat remaining /\
          Full.day_date E (Full.clock E t) j = Full.Raise e
    | Full.Return m =>
        m = (n + length new)%nat /\
        length new = Full.successful_days E city c i remaining w /\
        Full.count_events Full.is_weather_request w' =
          (Full.count_events Full.is_weather_request w + remaining)%nat
    end.
Proof.
  induction remaining as [|remaining IH]; intros i n w.
  - simpl. unfold Full.ret. simpl. split_ands; try reflexivity.
    exists []. rewrite app_nil_r. split_ands; auto; lia.
  - destruct (full_collect_historical_day_effect city c i w)
      as (Hcur1 & Hcache1 & Hgeo1 & new1 & Hnew1 & Hrange1 & Hsleep1 & Hres1).
    cbn [Full.collect_historical_days Full.successful_days]. unfold Full.bind.
    destruct (Full.collect_historical_day E city c i w) as [[e|ok] w1].
    + simpl in *. destruct Hres1 as [Hdate ->].
      split_ands; auto.
      exists []. rewrite app_nil_r in *. split_ands; auto; try (simpl; lia).
      exists (Full.steps w), i. split; [lia | exact Hdate].
    + cbn [fst snd] in *. destruct Hres1 as (Hok & Hlen1 & Hreq1).
      destruct (IH (i + 1) (if ok then S n else n) w1)
        as (Hcur2 & Hcache2 & Hgeo2 & new2 & Hnew2 & Hrange2 & Hlen2 & Hsleep2 & Hres2).
      split_ands; try congruence.
      exists (new1 ++ new2). rewrite length_app.
      split_ands.
      * rewrite Hnew2, Hnew1, app_assoc. reflexivity.
      * apply Forall_app. split; assumption.
      * destruct ok; lia.
      * lia.
      * destruct (Full.collect_historical_days E city c (i + 1) remaining
                    (if ok then S n else n) w1) as [[e|m] w2]; cbn [fst snd] in *.
        -- destruct Hres2 as (t & j & Hj & Hdate). exists t, j. split; [lia | exact Hdate].
        -- destruct Hres2 as (Hm & Hsucc & Hreq2). rewrite <- Hok, <- Hsucc.
           split_ands; destruct ok; lia.
Qed.

(** The loop returns when the dates of its days exist. *)
Lemma full_collect_historical_days_returns (city : string) (c : coords)
  (remaining : nat) (i : Z) (n : nat) (w : Full.world) :
  (forall (t : nat) (j : Z),
     i <= j < i + Z.of_nat remaining ->
     exists d, Full.day_date E (Full.clock E t) j = Full.Return d) ->
  exists m, fst (Full.collect_historical_days E city c i remaining n w) = Full.Return m.
Proof.
  intros Hdates.
  destruct (full_collect_historical_days_effect city c remaining i n w)
    as (_ & _ & _ & new & _ & _ & _ & _ & Hres).
  destruct (fst (Full.collect_historical_days E city c i remaining n w)) as [e|m].
  - destruct Hres as (t & j & Hj & Hdate).
    destruct (Hdates t j Hj) as (d & Hd). congruence.
  - exists m. reflexivity.
Qed.

(** The loop over [n1 + n2] days is the loop over the first [n1] followed,
    if it returns, by the loop over the other [n2]. *)
Lemma full_collect_historical_days_app (city : string) (c : coords) (n1 n2 : nat) :
  forall (i : Z) (k : nat) (w : Full.world),
  Full.collect_historical_days E city c i (n1 + n2) k w =
    match Full.collect_historical_days E city c i n1 k w with
    | (Full.Return k1, w1) =>
        Full.collect_historical_days E city c (i + Z.of_nat n1) n2 k1 w1
    | (Full.Raise e, w1) => (Full.Raise e, w1)
    end.
Proof.
  induction n1 as [|n1 IH]; intros i k w.
  - simpl. unfold Full.ret. rewrite Z.add_0_r. reflexivity.
  - cbn [Nat.add Full.collect_historical_days]. unfold Full.bind.
    destruct (Full.collect_historical_day E city c i w) as [[e|ok] w1].
    + reflexivity.
    + rewrite IH. replace (i + 1 + Z.of_nat n1) with (i + Z.of_nat (S n1)) by lia.
      reflexivity.
Qed.

End FullHistoricalLoop.

(** ** Historical collection in the full model *)

Section FullHistoricalCollection.

Variable E : Full.env.

(** The routine around its loop: what the loop left, plus one log line when
    the loop returns. *)
Lemma full_collect_historical_weather_loop (city : string) (days_back : Z)
  (w resolved : Full.world) (c : coords) :
  Full.get_city_coordinates E city w = (Full.Return (Some c), resolved) ->
  let loop := Full.collect_historical_days E city c 0 (Z.to_nat days_back) 0%nat resolved in
  let run := Full.collect_historical_weather E city days_back w in
  Full.db (snd run) = Full.db (snd loop) /\
  (forall p, (forall l, p (Full.Logged l) = false) ->
     Full.count_events p (snd run) = Full.count_events p (snd loop)) /\
  fst run = match fst loop with
            | Full.Return success_count => Full.Return (0 <? success_count)%nat
            | Full.Raise e => Full.Raise e
            end.
Proof.
  intros Hres loop run. subst loop run.
  unfold Full.collect_historical_weather, Full.bind. rewrite Hres.
  destruct (Full.collect_historical_days E city c 0 (Z.to_nat days_back) 0%nat resolved)
    as [[e|m] w1]; unfold Full.count_events; full_monad.
  - split_ands; auto.
  - split_ands; auto. intros p Hp. rewrite Hp. reflexivity.
Qed.

(** C3: in a collection over [days_back] days, take any day [i] of
    [range(days_back)] that the loop reaches (the days before it have been
    processed from offset 0 on) and on which a record is stored.  For the
    answer fetched that day, the record appended to the table is the
    synthetic record of the specification for offset [i] -- temperature and
    feelsLike plus i*0.1, humidity and cloudCover clamped to 0..100 after
    adding i mod 10 and i mod 20, pressure plus i mod 5, windSpeed plus
    i*0.05 and not below 0, windDirection plus 2*i modulo 360, weatherMain
    and weatherDescription as fetched, observedAt the time read that day
    minus i+1 days -- and it is in the table when the routine ends. *)
Theorem collect_historical_weather_stores_synthetic_record (city : string)
  (days_back i : Z) (w resolved reached stored : Full.world) (c : coords)
  (counted : nat) (data : Full.weather_json) :
  Full.get_city_coordinates E city w = (Full.Return (Some c), resolved) ->
  0 <= i < days_back ->
  Full.collect_historical_days E city c 0 (Z.to_nat i) 0%nat resolved =
    (Full.Return counted, reached) ->
  Full.weather_api E (S (Full.steps reached)) (c_lat c) (c_lon c) = Full.Return data ->
  Full.collect_historical_day E city c i reached = (Full.Return true, stored) ->
  exists (o : Full.observation) (later : list Full.historical_row),
    Full.observed data = Some o /\
    Full.historical_weather (Full.db stored) =
      Full.historical_weather (Full.db reached)
      ++ [Full.synthetic_record c (Full.clock E (Full.steps reached)) i o] /\
    Full.historical_weather
      (Full.db (snd (Full.collect_historical_weather E city days_back w))) =
      Full.historical_weather (Full.db stored) ++ later.
Proof.
  intros Hres Hi Hbefore Hapi Hday.
  (* the record of day i *)
  pose proof (full_collect_historical_day_outcome E city c i reached) as Hout.
  destruct (Full.day_date E (Full.clock E (Full.steps reached)) i) as [e|date] eqn:Hdate.
  { rewrite Hout in Hday. discriminate. }
  destruct (Full.day_outcome E c i reached) as [e|row] eqn:Hrow.
  { destruct Hout as (n & Hout). rewrite Hout in Hday. discriminate. }
  rewrite Hout in Hday. injection Hday as <-.
  unfold Full.day_outcome in Hrow. rewrite Hdate, Hapi in Hrow. simpl in Hrow.
  apply full_day_date_return in Hdate. subst date.
  destruct (Full.historical_data c _ i data) as [e|row'] eqn:Hbuilt;
    simpl in Hrow; [discriminate|].
  destruct (Full.insert_fault E (S (S (Full.steps reached)))); [discriminate|].
  destruct (Full.insert_into_historical_weather row' (Full.db reached));
    simpl in Hrow; [discriminate|].
  injection Hrow as <-.
  apply full_historical_data_observed in Hbuilt. destruct Hbuilt as (o & Hobs & ->).
  (* the days after it *)
  destruct (full_collect_historical_weather_loop city days_back w resolved c Hres)
    as (Hdb & _ & _).
  rewrite Hdb.
  replace (Z.to_nat days_back)
    with (Z.to_nat i + S (Z.to_nat (days_back - i - 1)))%nat by lia.
  rewrite full_collect_historical_days_app, Hbefore.
  rewrite Z2Nat.id by lia.
  cbn [Full.collect_historical_days]. unfold Full.bind at 1.
  replace (0 + i) with i by lia. rewrite Hout.
  match goal with
  | |- context [Full.collect_historical_days E city c ?j ?r ?n ?w0] =>
      destruct (full_collect_historical_days_effect E city c r j n w0)
        as (_ & _ & _ & later & Hlater & _)
  end.
  exists o, later. split; [exact Hobs|]. split; [reflexivity | exact Hlater].
Qed.


(** C5 (as amended): when the date of every day of [range(days_back)]
    exists, then, once the city is resolved, every one of the [days_back]
    days is processed whatever the days before it came to (one weather
    request per day), the table grows by one record per successful day, and
    the routine returns, without raising, whether at least one day
    succeeded. *)
Theorem collect_historical_weather_continues_while_dates_exist (city : string)
  (days_back : Z) (w resolved : Full.world) (c : coords) :
  1 <= days_back ->
  Full.get_city_coordinates E city w = (Full.Return (Some c), resolved) ->
  (forall (t : nat) (i : Z),
     0 <= i < days_back ->
     exists date, Full.day_date E (Full.clock E t) i = Full.Return date) ->
  let K := Full.successful_days E city c 0 (Z.to_nat days_back) resolved in
  let w' := snd (Full.collect_historical_weather E city days_back w) in
  fst (Full.collect_historical_weather E city days_back w) = Full.Return (0 <? K)%nat /\
  (exists new : list Full.historical_row,
     Full.historical_weather (Full.db w') = Full.historical_weather (Full.db w) ++ new /\
     length new = K) /\
  Full.count_events Full.is_weather_request w' =
    (Full.count_events Full.is_weather_request w + Z.to_nat days_back)%nat.
Proof.
  intros Hdays Hres Hdates K w'. subst K w'.
  destruct (full_get_city_coordinates_effect E city w)
    as (_ & _ & _ & _ & Hhist & _ & Hreq & _).
  rewrite Hres in Hhist, Hreq. simpl in Hhist, Hreq.
  destruct (full_collect_historical_weather_loop city days_back w resolved c Hres)
    as (Hdb & Hcount & Hfst).
  rewrite Hdb, Hfst, (Hcount Full.is_weather_request) by reflexivity.
  destruct (full_collect_historical_days_returns E city c (Z.to_nat days_back) 0 0%nat
              resolved) as (m & Hm).
  { intros t j Hj. apply Hdates. lia. }
  destruct (full_collect_historical_days_effect E city c (Z.to_nat days_back) 0 0%nat
              resolved) as (_ & _ & _ & new & Hnew & _ & _ & _ & Hloop).
  rewrite Hm in *. destruct Hloop as (-> & Hlen & Hrequests).
  rewrite <- Hlen. split_ands.
  - reflexivity.
  - exists new. rewrite Hnew, Hhist. split; reflexivity.
  - rewrite Hrequests, Hreq. reflexivity.
Qed.

(** When the dates of the first [n] days exist and the date of the next one
    does not, the routine raises what that date raises, after [n] weather
    requests. *)
Lemma full_collect_historical_weather_raises (city : string) (days_back : Z)
  (w resolved : Full.world) (c : coords) (n : nat) (e : Full.exn) :
  Full.get_city_coordinates E city w = (Full.Return (Some c), resolved) ->
  Z.of_nat n < days_back ->
  (forall (t : nat) (i : Z),
     0 <= i < Z.of_nat n ->
     exists date, Full.day_date E (Full.clock E t) i = Full.Return date) ->
  (forall t : nat, Full.day_date E (Full.clock E t) (Z.of_nat n) = Full.Raise e) ->
  fst (Full.collect_historical_weather E city days_back w) = Full.Raise e /\
  Full.count_events Full.is_weather_request
    (snd (Full.collect_historical_weather E city days_back w)) =
    (Full.count_events Full.is_weather_request resolved + n)%nat.
Proof.
  intros Hres Hn Hdates Hfails.
  destruct (full_collect_historical_weather_loop city days_back w resolved c Hres)
    as (_ & Hcount & Hfst).
  rewrite Hfst, (Hcount Full.is_weather_request) by reflexivity.
  replace (Z.to_nat days_back) with (n + S (Z.to_nat days_back - S n))%nat by lia.
  rewrite full_collect_historical_days_app.
  destruct (full_collect_historical_days_returns E city c n 0 0%nat resolved)
    as (m & Hm).
  { intros t j Hj. apply Hdates. lia. }
  destruct (full_collect_historical_days_effect E city c n 0 0%nat resolved)
    as (_ & _ & _ & new & _ & _ & _ & _ & Hloop).
  destruct (Full.collect_historical_days E city c 0 n 0%nat resolved) as [r reached].
  simpl in Hm, Hloop. subst r. destruct Hloop as (_ & _ & Hrequests).
  cbn [Full.collect_historical_days]. unfold Full.bind.
  pose proof (full_collect_historical_day_outcome E city c (0 + Z.of_nat n) reached)
    as Hout.
  replace (0 + Z.of_nat n) with (Z.of_nat n) in * by lia.
  rewrite Hfails in Hout. rewrite Hout. unfold Full.count_events in *. simpl.
  split; [reflexivity | exact Hrequests].
Qed.

(** X17: a historical collection, whether it returns or raises, does not
    write to [current_weather], keeps every cached row, asks the geocoder at
    most once and adds at most [days_back] records; it raises only when the
    cache cannot be read or when a date of [range(days_back)] does not
    exist. *)
Theorem collect_historical_weather_frame_or_raise (city : string) (days_back : Z)
  (w : Full.world) :
  let w' := snd (Full.collect_historical_weather E city days_back w) in
  Full.current_weather (Full.db w') = Full.current_weather (Full.db w) /\
  Full.cache_kept w w' /\
  (Full.count_events Full.is_geocoding_request w' <=
     S (Full.count_events Full.is_geocoding_request w))%nat /\
  (exists new : list Full.historical_row,
     Full.historical_weather (Full.db w') = Full.historical_weather (Full.db w) ++ new /\
     (length new <= Z.to_nat days_back)%nat) /\
  (forall e, fst (Full.collect_historical_weather E city days_back w) = Full.Raise e ->
     Full.database_fault E (Full.steps w) = Some e \/
     exists (t : nat) (i : Z),
       0 <= i < days_back /\ Full.day_date E (Full.clock E t) i = Full.Raise e).
Proof.
  intros w'. subst w'.
  destruct (full_get_city_coordinates_effect E city w)
    as (Hraise & _ & Hkept & Hcur & Hhist & _ & _ & Hgeo).
  destruct (Full.get_city_coordinates E city w) as [[e|[c|]] resolved] eqn:Hres;
    simpl in Hraise, Hkept, Hcur, Hhist, Hgeo.
  - unfold Full.collect_historical_weather, Full.bind. rewrite Hres. simpl.
    split_ands; auto.
    + exists []. rewrite app_nil_r. split; [exact Hhist | simpl; lia].
    + intros e' He'. injection He' as <-. left. apply Hraise.
  - destruct (full_collect_historical_weather_loop city days_back w resolved c Hres)
      as (Hdb & Hcount & Hfst).
    rewrite Hfst, (Hcount Full.is_geocoding_request) by reflexivity.
    unfold Full.cache_kept in *. rewrite Hdb.
    destruct (full_collect_historical_days_effect E city c (Z.to_nat days_back) 0 0%nat
                resolved)
      as (Hcur2 & Hcache2 & Hgeo2 & new & Hnew & _ & Hlen & _ & Hloop).
    split_ands.
    + rewrite Hcur2. exact Hcur.
    + intros k r Hr. rewrite Hcache2. auto.
    + rewrite Hgeo2. exact Hgeo.
    + exists new. rewrite Hnew, Hhist. split; [reflexivity | exact Hlen].
    + intros e He.
      destruct (fst (Full.collect_historical_days E city c 0 (Z.to_nat days_back) 0%nat
                       resolved)) as [e'|m]; [|discriminate].
      injection He as <-. right.
      destruct Hloop as (t & j & Hj & Hdate). exists t, j. split; [lia | exact Hdate].
  - unfold Full.collect_historical_weather, Full.bind. rewrite Hres.
    unfold Full.count_events in *. full_monad.
    split_ands; auto.
    + exists []. rewrite app_nil_r. split; [exact Hhist | simpl; lia].
    + intros e He. discriminate.
Qed.

End FullHistoricalCollection.

(** Witness for C3: day 3 of a collection of five days for London. *)
Lemma collect_historical_weather_stores_synthetic_record_witness :
  let E := FullSample.steady FullSample.overcast in
  let reached :=
    snd (Full.collect_historical_days E "London" Sample.London_coords 0 3 0%nat
           FullSample.London_cached) in
  let stored :=
    snd (Full.collect_historical_day E "London" Sample.London_coords 3 reached) in
  exists (o : Full.observation) (later : list Full.historical_row),
    Full.observed FullSample.overcast = Some o /\
    Full.historical_weather (Full.db stored) =
      Full.historical_weather (Full.db reached)
      ++ [Full.synthetic_record Sample.London_coords (Full.clock E (Full.steps reached)) 3 o] /\
    Full.historical_weather
      (Full.db (snd (Full.collect_historical_weather E "London" 5 FullSample.fresh))) =
      Full.historical_weather (Full.db stored) ++ later.
Proof.
  apply (collect_historical_weather_stores_synthetic_record
           (FullSample.steady FullSample.overcast) "London" 5 3 FullSample.fresh
           FullSample.London_cached
           (snd (Full.collect_historical_days (FullSample.steady FullSample.overcast)
                   "London" Sample.London_coords 0 3 0%nat FullSample.London_cached))
           (snd (Full.collect_historical_day (FullSample.steady FullSample.overcast)
                   "London" Sample.London_coords 3
                   (snd (Full.collect_historical_days
                           (FullSample.steady FullSample.overcast)
                           "London" Sample.London_coords 0 3 0%nat
                           FullSample.London_cached))))
           Sample.London_coords 3%nat FullSample.overcast).
  - vm_compute. reflexivity.
  - lia.
  - vm_compute. reflexivity.
  - reflexivity.
  - vm_compute. reflexivity.
Defined.

(** The five records of that collection, field by field: the offsets are 0
    to 4, day by day. *)
Example five_days_for_London :
  let E := FullSample.steady FullSample.overcast in
  let rows :=
    Full.historical_weather
      (Full.db (snd (Full.collect_historical_weather E "London" 5 FullSample.fresh))) in
  map Full.hw_humidity rows =
    [Full.PInt 95; Full.PInt 96; Full.PInt 97; Full.PInt 98; Full.PInt 99] /\
  map Full.hw_pressure rows =
    [Full.PInt 1013; Full.PInt 1014; Full.PInt 1015; Full.PInt 1016; Full.PInt 1017] /\
  map Full.hw_wind_direction rows =
    [Full.PInt 350; Full.PInt 352; Full.PInt 354; Full.PInt 356; Full.PInt 358] /\
  map Full.hw_cloud_cover rows =
    [Full.PInt 90; Full.PInt 91; Full.PInt 92; Full.PInt 93; Full.PInt 94] /\
  map Full.hw_temperature rows =
    [(10.5 + 0 * 0.1)%float; (10.5 + 1 * 0.1)%float; (10.5 + 2 * 0.1)%float;
     (10.5 + 3 * 0.1)%float; (10.5 + 4 * 0.1)%float] /\
  map Full.hw_timestamp rows =
    [FullSample.noon_2023 - 1 * microseconds_per_day;
     FullSample.noon_2023 - 2 * microseconds_per_day;
     FullSample.noon_2023 - 3 * microseconds_per_day;
     FullSample.noon_2023 - 4 * microseconds_per_day;
     FullSample.noon_2023 - 5 * microseconds_per_day].
Proof. vm_compute. repeat split; reflexivity. Qed.


(** Counted back from 2023-11-14 22:13:20, the dates of the days 0 to
    738836 lie within the years 1 to 9999; the date of day 738836 is
    0001-01-01 22:13:20, which has no timestamp on a platform in UTC; the
    date of day 738837 would lie before year 1. *)
Lemma days_before_noon_2023 (E : Full.env) (i : Z) :
  0 <= i < 738837 ->
  Full.timestamp_fault E (FullSample.noon_2023 - (i + 1) * microseconds_per_day) = None ->
  Full.day_date E FullSample.noon_2023 i =
    Full.Return (FullSample.noon_2023 - (i + 1) * microseconds_per_day).
Proof.
  intros Hi Hfault. unfold Full.day_date, Full.minus_days.
  set (date := FullSample.noon_2023 - (i + 1) * microseconds_per_day) in *.
  assert (Hdate : 0 <= date <= Full.max_datetime)
    by (unfold date, Full.max_datetime, FullSample.noon_2023, microseconds_per_day; lia).
  replace (999999999 <? Z.abs (i + 1)) with false by (symmetry; apply Z.ltb_ge; lia).
  replace (date <? 0) with false by (symmetry; apply Z.ltb_ge; lia).
  replace (Full.max_datetime <? date) with false by (symmetry; apply Z.ltb_ge; lia).
  simpl. rewrite Hfault. reflexivity.
Qed.

(** In UTC the dates of the days 0 to 738835 have a timestamp. *)
Lemma utc_days_before_noon_2023 (i : Z) :
  0 <= i < 738836 ->
  FullSample.utc_timestamp_fault
    (FullSample.noon_2023 - (i + 1) * microseconds_per_day) = None.
Proof.
  intros Hi. unfold FullSample.utc_timestamp_fault.
  replace (FullSample.noon_2023 - (i + 1) * microseconds_per_day <? microseconds_per_day)
    with false; [reflexivity|].
  symmetry. apply Z.ltb_ge. unfold FullSample.noon_2023, microseconds_per_day. lia.
Qed.

(** Witness for C5: five days back for London with the endpoint down on day 3
    give four records, five requests and an overall success. *)
Lemma collect_historical_weather_continues_while_dates_exist_witness :
  let run := Full.collect_historical_weather FullSample.outage_on_day_3 "London" 5
               FullSample.fresh in
  let K := Full.successful_days FullSample.outage_on_day_3 "London" Sample.London_coords 0
             (Z.to_nat 5) FullSample.London_cached in
  (fst run = Full.Return (0 <? K)%nat /\
   (exists new : list Full.historical_row,
      Full.historical_weather (Full.db (snd run)) =
        Full.historical_weather (Full.db FullSample.fresh) ++ new /\
      length new = K) /\
   Full.count_events Full.is_weather_request (snd run) =
     (Full.count_events Full.is_weather_request FullSample.fresh + Z.to_nat 5)%nat) /\
  K = 4%nat /\
  Full.day_succeeds FullSample.outage_on_day_3 Sample.London_coords 3
    (snd (Full.collect_historical_days FullSample.outage_on_day_3 "London"
            Sample.London_coords 0 3 0%nat FullSample.London_cached)) = false /\
  length (Full.historical_weather (Full.db (snd run))) = 4%nat.
Proof.
  split.
  - apply (collect_historical_weather_continues_while_dates_exist
             FullSample.outage_on_day_3 "London" 5 FullSample.fresh
             FullSample.London_cached Sample.London_coords).
    + lia.
    + vm_compute. reflexivity.
    + intros t i Hi. eexists.
      apply days_before_noon_2023; [lia | apply utc_days_before_noon_2023; lia].
  - vm_compute. repeat split; reflexivity.
Defined.

(** C5 as stated fails for a [days_back] that reaches before year 1: the
    date of a day is computed outside the try of that day, so the routine
    raises, the days after it are not processed and nothing is reported.
    With 740000 days back from 2023-11-14, on a platform in UTC the routine
    raises on day 738836, whose date has no timestamp, after 738836 weather
    requests; were [timestamp()] to accept every date, it would raise on
    day 738837, whose date does not exist. *)
Lemma collect_historical_weather_aborts_counterexample :
  let run (E : Full.env) := Full.collect_historical_weather E "London" 740000 FullSample.fresh in
  let in_utc := run (FullSample.steady FullSample.overcast) in
  let in_any_zone := run (FullSample.steady_in_any_zone FullSample.overcast) in
  (fst in_utc = Full.Raise (Full.ValueError "year 0 is out of range") /\
   Full.count_events Full.is_weather_request (snd in_utc) = Z.to_nat 738836) /\
  (fst in_any_zone = Full.Raise (Full.OverflowError "date value out of range") /\
   Full.count_events Full.is_weather_request (snd in_any_zone) = Z.to_nat 738837).
Proof.
  split.
  - destruct (full_collect_historical_weather_raises
                (FullSample.steady FullSample.overcast) "London" 740000 FullSample.fresh
                FullSample.London_cached Sample.London_coords (Z.to_nat 738836)
                (Full.ValueError "year 0 is out of range"))
      as [Hraise Hcount].
    + vm_compute. reflexivity.
    + lia.
    + intros t i Hi. eexists.
      apply days_before_noon_2023; [lia | apply utc_days_before_noon_2023; lia].
    + intros t. rewrite Z2Nat.id by lia. vm_compute. reflexivity.
    + split; [exact Hraise|]. rewrite Hcount. reflexivity.
  - destruct (full_collect_historical_weather_raises
                (FullSample.steady_in_any_zone FullSample.overcast) "London" 740000
                FullSample.fresh FullSample.London_cached Sample.London_coords
                (Z.to_nat 738837)
                (Full.OverflowError "date value out of range"))
      as [Hraise Hcount].
    + vm_compute. reflexivity.
    + lia.
    + intros t i Hi. eexists. apply days_before_noon_2023; [lia | reflexivity].
    + intros t. rewrite Z2Nat.id by lia. vm_compute. reflexivity.
    + split; [exact Hraise|]. rewrite Hcount. reflexivity.
Qed.

(** ** The loop of the cycle in the full model *)

Section FullCollectionCycle.

Variable E : Full.env.
Variable delay : float.

(** C9 (as amended): with a delay that [time.sleep] accepts, take any city
    of a cycle, reached after the cities before it.  When its collection
    returns -- True, or False because the resolution, the fetch or the
    INSERT failed -- the delay is the first thing that happens after it and
    the cities after it are processed from there.  When its collection
    raises, which it does only when the cache cannot be read, the error is
    logged and the cities after it are processed at once, without delay. *)
Theorem collect_cities_delay_after_returning_collection (before after : list string)
  (city : string) (success_count : nat) (w : Full.world) :
  Full.valid_sleep delay = true ->
  let reached := snd (Full.collect_cities E delay before success_count w) in
  let processed := snd (Full.collect_current_weather E city reached) in
  let next (ev : Full.event) :=
    {| Full.db := Full.db processed; Full.steps := Full.steps processed;
       Full.events := ev :: Full.events processed |} in
  exists counted : nat,
    fst (Full.collect_cities E delay before success_count w) = Full.Return counted /\
    match fst (Full.collect_current_weather E city reached) with
    | Full.Return ok =>
        Full.collect_cities E delay (before ++ city :: after) success_count w =
          Full.collect_cities E delay after (if ok then S counted else counted)
            (next (Full.Slept delay))
    | Full.Raise e =>
        Full.database_fault E (Full.steps reached) = Some e /\
        Full.collect_cities E delay (before ++ city :: after) success_count w =
          Full.collect_cities E delay after counted
            (next (Full.Logged (Full.ErrorCollectingWeather city e)))
    end.
Proof.
  intros Hvalid reached processed next. subst reached processed next.
  destruct (full_collect_cities_app E delay before (city :: after) success_count w)
    as (counted & Hbefore & Happ).
  exists counted. split; [exact Hbefore|]. rewrite Happ.
  set (reached := snd (Full.collect_cities E delay before success_count w)).
  pose proof (full_collect_city_outcome E delay city counted reached) as Hcity.
  destruct (full_collect_current_weather_effect E city reached) as (Hraise & _).
  cbn [Full.collect_cities]. unfold Full.bind.
  destruct (Full.collect_current_weather E city reached) as [[e|ok] processed];
    cbn [fst snd] in *.
  - rewrite Hcity. split; [apply Hraise | reflexivity].
  - destruct Hcity as [Hslept _]. rewrite (Hslept Hvalid). reflexivity.
Qed.

(** With a valid delay and a cache that can be read, every city is followed
    by one sleep. *)
Lemma full_collect_cities_sleeps (cities : list string) :
  Full.valid_sleep delay = true ->
  (forall t, Full.database_fault E t = None) ->
  forall (success_count : nat) (w : Full.world),
  Full.count_events Full.is_sleep (snd (Full.collect_cities E delay cities success_count w)) =
    (Full.count_events Full.is_sleep w + length cities)%nat.
Proof.
  intros Hvalid Hread.
  induction cities as [|city cities IH]; intros n w.
  - simpl. lia.
  - cbn [Full.collect_cities]. unfold Full.bind.
    pose proof (full_collect_city_outcome E delay city n w) as Hcity.
    destruct (full_collect_current_weather_effect E city w)
      as (Hraise & _ & _ & _ & Hsleep & _).
    destruct (Full.collect_current_weather E city w) as [[e|ok] processed];
      cbn [fst snd] in *.
    + destruct Hraise as [Hfault _]. rewrite Hread in Hfault. discriminate.
    + destruct Hcity as [Hslept _]. rewrite (Hslept Hvalid), IH.
      unfold Full.count_events in *. simpl. rewrite Hsleep. simpl. lia.
Qed.

(** X5: the loop over N cities never raises, whatever fails inside; it
    counts at most N successes, sleeps at most N times and issues at most N
    geocoding requests and at most N weather requests.  It sleeps exactly N
    times when the delay is one [time.sleep] accepts and the cache can be
    read. *)
Theorem collect_cities_budget (cities : list string) (success_count : nat)
  (w : Full.world) :
  let run := Full.collect_cities E delay cities success_count w in
  (exists counted,
     fst run = Full.Return counted /\
     (success_count <= counted <= success_count + length cities)%nat) /\
  (Full.count_events Full.is_sleep (snd run) <=
     Full.count_events Full.is_sleep w + length cities)%nat /\
  (Full.count_events Full.is_geocoding_request (snd run) <=
     Full.count_events Full.is_geocoding_request w + length cities)%nat /\
  (Full.count_events Full.is_weather_request (snd run) <=
     Full.count_events Full.is_weather_request w + length cities)%nat /\
  (Full.valid_sleep delay = true ->
   (forall t, Full.database_fault E t = None) ->
   Full.count_events Full.is_sleep (snd run) =
     (Full.count_events Full.is_sleep w + length cities)%nat).
Proof.
  intros run. subst run.
  destruct (full_collect_cities_effect E delay cities success_count w)
    as (Hres & _ & _ & _ & Hsleep & Hgeo & Hreq).
  split_ands; auto.
  intros Hvalid Hread. apply full_collect_cities_sleeps; assumption.
Qed.

End FullCollectionCycle.

(** Witness for C9: Testville is unknown to the geocoder, its collection
    returns False and the delay follows; London is collected next. *)
Lemma collect_cities_delay_after_returning_collection_witness :
  let E := FullSample.steady FullSample.overcast in
  let processed := snd (Full.collect_current_weather E "Testville" FullSample.fresh) in
  (exists counted : nat,
     fst (Full.collect_cities E 1%float [] 0%nat FullSample.fresh) = Full.Return counted /\
     Full.collect_cities E 1%float ([] ++ "Testville" :: ["London"]) 0%nat FullSample.fresh =
       Full.collect_cities E 1%float ["London"] (if false then S counted else counted)
         {| Full.db := Full.db processed; Full.steps := Full.steps processed;
            Full.events := Full.Slept 1%float :: Full.events processed |}) /\
  rev (Full.events (snd (Full.collect_cities E 1%float ["Testville"; "London"] 0%nat
                           FullSample.fresh))) =
    [Full.Requested (GeocodingRequest "Testville");
     Full.Logged (Full.ErrorNoCoordinates "Testville");
     Full.Slept 1%float;
     Full.Requested (GeocodingRequest "London");
     Full.Requested (WeatherRequest 51.5%float (-0.125)%float);
     Full.Logged (Full.InfoCollectedCurrent "London");
     Full.Slept 1%float].
Proof.
  split.
  - exact (collect_cities_delay_after_returning_collection
             (FullSample.steady FullSample.overcast) 1%float [] ["London"] "Testville"
             0%nat FullSample.fresh eq_refl).
  - vm_compute. reflexivity.
Defined.

(** C9 as stated fails twice over.  When the database is locked, the lookup
    of the cache raises, outside every try of the collector: the loop logs
    the error and goes on to the next city without the delay.  And a
    negative delay is refused by [time.sleep]: the cities follow each other
    without any delay, each with an error in the log, also the one that was
    collected. *)
Lemma delay_skipped_counterexample :
  rev (Full.events (snd (Full.collect_cities FullSample.locked 1%float
                           ["London"; "Paris"] 0%nat FullSample.fresh))) =
    [Full.Logged (Full.ErrorCollectingWeather "London"
                    (Full.OperationalError "database is locked"));
     Full.Logged (Full.ErrorCollectingWeather "Paris"
                    (Full.OperationalError "database is locked"))] /\
  rev (Full.events (snd (Full.collect_cities (FullSample.steady FullSample.overcast)
                           (-1)%float ["London"; "Testville"] 0%nat FullSample.fresh))) =
    [Full.Requested (GeocodingRequest "London");
     Full.Requested (WeatherRequest 51.5%float (-0.125)%float);
     Full.Logged (Full.InfoCollectedCurrent "London");
     Full.Logged (Full.ErrorCollectingWeather "London"
                    (Full.ValueError "sleep length must be non-negative"));
     Full.Requested (GeocodingRequest "Testville");
     Full.Logged (Full.ErrorNoCoordinates "Testville");
     Full.Logged (Full.ErrorCollectingWeather "Testville"
                    (Full.ValueError "sleep length must be non-negative"))] /\
  fst (Full.collect_cities (FullSample.steady FullSample.overcast)
         (-1)%float ["London"; "Testville"] 0%nat FullSample.fresh) = Full.Return 1%nat.
Proof. vm_compute. repeat split; reflexivity. Qed.

(** ** Resolution and the current-weather row in the full model *)

Section FullResolutionFailure.

Variable E : Full.env.

(** X2: a resolution raises exactly when the cache cannot be read (the
    connection, the SELECT and [fetchone] precede the try), and then nothing
    has been requested or logged; whenever it raises or returns None -- the
    geocoder failed or knew no match, or the INSERT failed, on a duplicate
    key or otherwise -- the database is exactly as before. *)
Theorem failed_resolution_changes_no_table (city : string) (w : Full.world) :
  let run := Full.get_city_coordinates E city w in
  (forall e, fst run = Full.Raise e <-> Full.database_fault E (Full.steps w) = Some e) /\
  (forall e, fst run = Full.Raise e -> Full.events (snd run) = Full.events w) /\
  ((fst run = Full.Return None \/ exists e, fst run = Full.Raise e) ->
   Full.db (snd run) = Full.db w).
Proof.
  intros run. subst run.
  destruct (full_get_city_coordinates_effect E city w) as (Hres & Hsame & _).
  split_ands.
  - intros e. split.
    + intros Hraise. rewrite Hraise in Hres. apply Hres.
    + intros Hfault. unfold Full.get_city_coordinates, Full.select_city_coordinates.
      full_monad. rewrite Hfault. reflexivity.
  - intros e Hraise. rewrite Hraise in Hres. apply Hres.
  - intros Hfailed. apply Hsame. intros o Ho.
    destruct Hfailed as [Hnone | (e & Hraise)]; congruence.
Qed.

(** X11: the row of a current-weather answer is built exactly when the
    answer carries [dt], the four [main] fields, [clouds.all],
    [weather[0].main], [weather[0].description], [sys.sunrise] and
    [sys.sunset], and [datetime.fromtimestamp] accepts [dt], [sunrise] and
    [sunset]; [wind] and [visibility] may be absent. *)
Theorem current_weather_data_keys_and_times (c : coords) (data : Full.weather_json) :
  (exists row, Full.current_weather_data E c data = Full.Return row) <->
  (exists (v_dt v_sunrise v_sunset : Full.number) (timestamp sunrise sunset : datetime),
     Full.dt data = Some v_dt /\
     Full.sys_sunrise data = Some v_sunrise /\
     Full.sys_sunset data = Some v_sunset /\
     Full.fromtimestamp_api E v_dt = Full.Return timestamp /\
     Full.fromtimestamp_api E v_sunrise = Full.Return sunrise /\
     Full.fromtimestamp_api E v_sunset = Full.Return sunset) /\
  is_Some (Full.main_temp data) /\ is_Some (Full.main_feels_like data) /\
  is_Some (Full.main_humidity data) /\ is_Some (Full.main_pressure data) /\
  is_Some (Full.clouds_all data) /\ is_Some (Full.weather0_main data) /\
  is_Some (Full.weather0_description data).
Proof.
  unfold Full.current_weather_data, Full.rbind, Full.subscript, is_Some.
  destruct (Full.dt data) as [v_dt|]; [|key_missing].
  destruct (Full.fromtimestamp_api E v_dt) as [e|timestamp] eqn:Hdt; [key_missing|].
  destruct (Full.main_temp data); [|key_missing].
  destruct (Full.main_feels_like data); [|key_missing].
  destruct (Full.main_humidity data); [|key_missing].
  destruct (Full.main_pressure data); [|key_missing].
  destruct (Full.clouds_all data); [|key_missing].
  destruct (Full.weather0_main data); [|key_missing].
  destruct (Full.weather0_description data); [|key_missing].
  destruct (Full.sys_sunrise data) as [v_sunrise|]; [|key_missing].
  destruct (Full.fromtimestamp_api E v_sunrise) as [e|sunrise] eqn:Hsunrise; [key_missing|].
  destruct (Full.sys_sunset data) as [v_sunset|]; [|key_missing].
  destruct (Full.fromtimestamp_api E v_sunset) as [e|sunset] eqn:Hsunset; [key_missing|].
  split; [intros _ | intros _; eexists; reflexivity].
  split; [|repeat split; eexists; reflexivity].
  exists v_dt, v_sunrise, v_sunset, timestamp, sunrise, sunset. repeat split; assumption.
Qed.

End FullResolutionFailure.

(** On a platform in UTC the last second of year 9999 is accepted and the
    next one is refused: an answer with every key present and such a [dt]
    gives no row. *)
Example current_weather_data_out_of_range_dt :
  let answer (seconds : Z) :=
    {| Full.dt := Some (Full.PInt seconds);
       Full.main_temp := Full.main_temp FullSample.overcast;
       Full.main_feels_like := Full.main_feels_like FullSample.overcast;
       Full.main_humidity := Full.main_humidity FullSample.overcast;
       Full.main_pressure := Full.main_pressure FullSample.overcast;
       Full.wind_speed := Full.wind_speed FullSample.overcast;
       Full.wind_deg := Full.wind_deg FullSample.overcast;
       Full.visibility := Full.visibility FullSample.overcast;
       Full.clouds_all := Full.clouds_all FullSample.overcast;
       Full.weather0_main := Full.weather0_main FullSample.overcast;
       Full.weather0_description := Full.weather0_description FullSample.overcast;
       Full.sys_sunrise := Full.sys_sunrise FullSample.overcast;
       Full.sys_sunset := Full.sys_sunset FullSample.overcast |} in
  let E := FullSample.steady FullSample.overcast in
  (exists row, Full.current_weather_data E Sample.London_coords (answer 253402300799) =
                 Full.Return row) /\
  Full.current_weather_data E Sample.London_coords (answer 253402300800) =
    Full.Raise (Full.ValueError "year is out of range").
Proof. vm_compute. split; [eexists; reflexivity | reflexivity]. Qed.

(** ** The duplicate key *)

(** C7, the code at the failing input: the cache holds the row of "London",
    and "london" is resolved, which the geocoder answers with the canonical
    name "London".  The lookup under "london" finds nothing, the INSERT under
    "London" violates the primary key, the exception is caught by the except
    of the resolver and logged, and the resolver returns None: the row of the
    first writer is kept, but the cache is not read again and the
    coordinates it holds are not returned.  Resolving "london" once more
    asks the geocoder again and logs a second error. *)
Theorem duplicate_key_resolution_returns_none :
  let E := FullSample.steady FullSample.overcast in
  let duplicate_key :=
    Full.IntegrityError "UNIQUE constraint failed: city_coordinates.city" in
  let first := Full.get_city_coordinates E "london" FullSample.London_cached in
  let second := Full.get_city_coordinates E "london" (snd first) in
  Full.city_coordinates (Full.db FullSample.London_cached) !! "London" =
    Some {| cc_country := "GB"; cc_latitude := 51.5%float;
            cc_longitude := (-0.125)%float |} /\
  Full.city_coordinates (Full.db FullSample.London_cached) !! "london" = None /\
  fst first = Full.Return None /\
  Full.db (snd first) = Full.db FullSample.London_cached /\
  Full.events (snd first) =
    Full.Logged (Full.ErrorGettingCoordinates "london" duplicate_key)
    :: Full.Requested (GeocodingRequest "london")
    :: Full.events FullSample.London_cached /\
  fst second = Full.Return None /\
  Full.events (snd second) =
    Full.Logged (Full.ErrorGettingCoordinates "london" duplicate_key)
    :: Full.Requested (GeocodingRequest "london")
    :: Full.events (snd first).
Proof. vm_compute. repeat split; reflexivity. Qed.
